(** * Effect programs as generators: combinators and interpreters

    The repository is a sequence of Python lessons in which an effectful
    computation is a generator: it yields a request ("syntax as data"), an
    interpreter services the request and sends a reply back, and the
    generator finally returns a value.  This development embeds

    - [30_either_basic.py] and [31_either_recover_with_either.py]
      (module [Either]),
    - [22_logging_with_combinators.py] (module [Logging]),
    - [70_state.py] and [71_state_fixed.py] (modules [State] and
      [StateFixed]),
    - [z0_io_basic_blocking.py], [41_io_basic_async.py] and [50_io_deps.py]
      (modules [IOBlocking], [IOAsync] and [IODeps]),

    and proves the properties of the specification about them.

    ** Representation

    A generator function body is a well-founded tree [Gen Y S A]: it
    returns a value of type [A], raises an exception, or yields a request
    of type [Y] and continues with a function of the value it is sent (of
    type [S]).  [yield from] is the substitution of such trees
    ([yield_from]).  A generator object (an instance whose cursor moves) is
    a [Generator]: a body not started yet, or a suspended continuation.
    The combinator classes of the source ([_RecoverWith],
    [_RecoverWithEither], [_MuteLogging], ...) are objects with a [send]
    method; they are embedded as records with the method transcribed, the
    update of the object made explicit in [Yielded y self'].  Each of them
    has a behaviour tree ([recover_with], [recover_with_either],
    [Logging.muted]); the [_reifies] lemmas prove that the object answers every
    sequence of sends exactly as that tree does, so the interpreters, which
    only ever call [send], are defined on trees. *)

From Stdlib Require Import ZArith List String Bool Lia.
From Stdlib Require Import QArith_base.
From Stdlib Require Import DecimalString.
Import ListNotations.

Set Warnings "-register-all".
Set Implicit Arguments.
Close Scope Q_scope.
Local Open Scope list_scope.
Local Open Scope string_scope.

(* ================================================================= *)
(** * Python values, exceptions, results *)

(** The values the programs compute with.  The source is dynamically
    typed ([Any]); [VStopFromError] and [VExitInPlace] are the two
    dataclasses the interpreters recognise with [isinstance] in the values
    they pass around, [VObj] is any other dataclass instance (its class
    name and its fields in order). *)
Inductive Val : Type :=
| VNone
| VInt (z : Z)
| VStr (s : string)
| VList (l : list Val)
| VObj (cls : string) (fields : list Val)
| VStopFromError (error : Val)
| VExitInPlace (error : Val).

(** Exceptions that are not part of the protocol.  [RuntimeError] is what
    the bare [raise] after a halt raises ("No active exception to
    reraise"), [AssertionError] a failed [assert], [TypeError] a non-None
    value sent to a generator that has not started, [ValueError] a failed
    unpacking. *)
Inductive Exn : Type := RuntimeError | AssertionError | TypeError | ValueError.

(** A Python call returns a value or propagates an exception. *)
Inductive Res (A : Type) : Type :=
| Ok (a : A)
| Exc (x : Exn).
Arguments Ok {A} a.
Arguments Exc {A} x.

(** [isinstance(v, StopFromError)] *)
Definition is_StopFromError (v : Val) : bool :=
  match v with VStopFromError _ => true | _ => false end.

(** [isinstance(v, ExitInPlace)] *)
Definition is_ExitInPlace (v : Val) : bool :=
  match v with VExitInPlace _ => true | _ => false end.

(** [isinstance(v, C)] for a dataclass [C] without subclasses. *)
Definition isinstance_obj (v : Val) (c : string) : bool :=
  match v with VObj c' _ => String.eqb c' c | _ => false end.

(** The two outcomes of a run in the representation of the source, where
    [run_* : A | StopFromError[E]]: a run halted when its result is a
    [StopFromError], it completed otherwise. *)
Definition Halted (e : Val) : Res Val := Ok (VStopFromError e).
Definition Completed (v : Val) : Res Val := Ok v.

(** [str(n)] of an int, as used in f-strings. *)
Definition str_int (n : Z) : string := NilZero.string_of_int (Z.to_int n).

(** What a type has for [None]: the value a driver sends first. *)
Class NoneLike (S : Type) : Type := {
  none : S;
  is_none : S -> bool;
  is_none_none : is_none none = true
}.

#[global] Instance NoneLike_Val : NoneLike Val :=
  {| none := VNone;
     is_none := fun v => match v with VNone => true | _ => false end;
     is_none_none := eq_refl |}.

#[global] Instance NoneLike_unit : NoneLike unit :=
  {| none := tt; is_none := fun _ => true; is_none_none := eq_refl |}.

#[global] Instance NoneLike_option (T : Type) : NoneLike (option T) :=
  {| none := None;
     is_none := fun o => match o with None => true | Some _ => false end;
     is_none_none := eq_refl |}.

(* ================================================================= *)
(** * Generators *)

(** The body of a generator function: [Generator[Y, S, A]]. *)
Inductive Gen (Y S A : Type) : Type :=
| Return (value : A)
| Yield (y : Y) (k : S -> Gen Y S A)
| Raise (x : Exn).
Arguments Return {Y S A} value.
Arguments Yield {Y S A} y k.
Arguments Raise {Y S A} x.

(** [x = yield from g; rest(x)]: every request of [g] is yielded as it is,
    every value sent is passed to [g], and the code after the delegation
    runs on the value [g] returns. *)
Fixpoint yield_from {Y S A B} (g : Gen Y S A) (rest : A -> Gen Y S B) : Gen Y S B :=
  match g with
  | Return a => rest a
  | Yield y k => Yield y (fun v => yield_from (k v) rest)
  | Raise x => Raise x
  end.

(** A function that only delegates ([middleman_1], [middleman_2] of
    [12_generator_yield_from.py]): [result = yield from g; return result],
    nested [n] times. *)
Fixpoint middleman {Y S A} (n : nat) (g : Gen Y S A) : Gen Y S A :=
  match n with
  | O => g
  | Datatypes.S n' => yield_from (middleman n' g) (fun result => Return result)
  end.

(** What [send] gives: a yielded request (and the object as the call left
    it), [StopIteration] with the return value, or another exception. *)
Inductive SendResult (Y G A : Type) : Type :=
| Yielded (y : Y) (self' : G)
| StopIteration (value : A)
| Raised (x : Exn).
Arguments Yielded {Y G A} y self'.
Arguments StopIteration {Y G A} value.
Arguments Raised {Y G A} x.

(** The generator protocol: an object with a [send] method.  ([__next__]
    is [send(None)] in every class of the source.) *)
Class Sendable (G Y S A : Type) : Type :=
  send : G -> S -> SendResult Y G A.

(** A generator object: created and not started, or suspended at a
    [yield]. *)
Inductive Generator (Y S A : Type) : Type :=
| Unstarted (body : Gen Y S A)
| Suspended (k : S -> Gen Y S A).
Arguments Unstarted {Y S A} body.
Arguments Suspended {Y S A} k.

(** Run a body up to its next [yield]. *)
Definition resume {Y S A} (g : Gen Y S A) : SendResult Y (Generator Y S A) A :=
  match g with
  | Return a => StopIteration a
  | Yield y k => Yielded y (Suspended k)
  | Raise x => Raised x
  end.

#[global] Instance Generator_send {Y S A} `{NoneLike S} : Sendable (Generator Y S A) Y S A :=
  fun self value =>
    match self with
    | Unstarted body => if is_none value then resume body else Raised TypeError
    | Suspended k => resume (k value)
    end.

(** [next(g)] *)
Definition next {G Y S A} `{NoneLike S} `{Sendable G Y S A} (g : G) : SendResult Y G A :=
  send g none.

(** What a driver sees of an object when it sends [sends] one after the
    other: the requests yielded, and how the object ended if it did
    ([None]: still suspended when the sends ran out). *)
Fixpoint observe {G Y S A} `{Sendable G Y S A} (sends : list S) (o : G)
  : list Y * option (Res A) :=
  match sends with
  | [] => ([], None)
  | v :: sends' =>
    match send o v with
    | Yielded y o' => let (t, r) := observe sends' o' in (y :: t, r)
    | StopIteration a => ([], Some (Ok a))
    | Raised x => ([], Some (Exc x))
    end
  end.

(** The same for a body that runs from its start and is sent [replies] at
    its successive yields. *)
Fixpoint trace {Y S A} (replies : list S) (g : Gen Y S A) {struct g}
  : list Y * option (Res A) :=
  match g with
  | Return a => ([], Some (Ok a))
  | Raise x => ([], Some (Exc x))
  | Yield y k =>
    match replies with
    | [] => ([y], None)
    | v :: replies' => let (t, r) := trace replies' (k v) in (y :: t, r)
    end
  end.

(* ================================================================= *)
(** * The recovery combinators (files 30, 31, z0, 41, 50) *)

(** Request types that have the [StopFromError] dataclass:
    [as_StopFromError v] is [Some v.error] when
    [isinstance(v, StopFromError)]. *)
Class HasStopFromError (Y : Type) : Type :=
  as_StopFromError : Y -> option Val.

(** [_RecoverWith]: the dataclass with its fields. *)
Record RecoverWith (G A : Type) : Type := mkRecoverWith {
  rw_decorated : G;
  rw_recover : Val -> A
}.

(** [_RecoverWith.send]:
<<
    v = self.decorated.send(value)
    if isinstance(v, StopFromError):
        e = StopIteration(); e.value = self.recover(v.error); raise e
    return v
>>
    A [StopIteration] or another exception of the decorated generator
    propagates. *)
#[global] Instance RecoverWith_send {G Y S A} `{HasStopFromError Y} `{Sendable G Y S A}
  : Sendable (RecoverWith G A) Y S A :=
  fun self value =>
    match send (rw_decorated self) value with
    | Yielded v decorated' =>
      match as_StopFromError v with
      | Some error => StopIteration (rw_recover self error)
      | None => Yielded v (mkRecoverWith decorated' (rw_recover self))
      end
    | StopIteration a => StopIteration a
    | Raised x => Raised x
    end.

(** The behaviour of [recover_with(either, recover)] as a tree. *)
Fixpoint recover_with {Y S A} `{HasStopFromError Y}
  (either : Gen Y S A) (recover : Val -> A) : Gen Y S A :=
  match either with
  | Return a => Return a
  | Raise x => Raise x
  | Yield v k =>
    match as_StopFromError v with
    | Some error => Return (recover error)
    | None => Yield v (fun value => recover_with (k value) recover)
    end
  end.

(** [_RecoverWithEither]: the dataclass with its fields,
    [decorated_recover] being [None] until the decorated program halts. *)
Record RecoverWithEither (G1 G2 : Type) : Type := mkRecoverWithEither {
  rwe_decorated : G1;
  rwe_recover : Val -> G2;
  rwe_decorated_recover : option G2
}.

(** [_RecoverWithEither.send]:
<<
    if self.decorated_recover is not None:
        return self.decorated_recover.send(value)
    else:
        v = self.decorated.send(value)
        if isinstance(v, StopFromError):
            self.decorated_recover = self.recover(v.error)
            return next(self.decorated_recover)
        return v
>>
*)
#[global] Instance RecoverWithEither_send {G1 G2 Y S A} `{NoneLike S} `{HasStopFromError Y}
  `{Sendable G1 Y S A} `{Sendable G2 Y S A}
  : Sendable (RecoverWithEither G1 G2) Y S A :=
  fun self value =>
    match rwe_decorated_recover self with
    | Some decorated_recover =>
      match send decorated_recover value with
      | Yielded y dr' =>
        Yielded y (mkRecoverWithEither (rwe_decorated self) (rwe_recover self) (Some dr'))
      | StopIteration a => StopIteration a
      | Raised x => Raised x
      end
    | None =>
      match send (rwe_decorated self) value with
      | Yielded v decorated' =>
        match as_StopFromError v with
        | Some error =>
          match next (rwe_recover self error) with
          | Yielded y dr' =>
            Yielded y (mkRecoverWithEither decorated' (rwe_recover self) (Some dr'))
          | StopIteration a => StopIteration a
          | Raised x => Raised x
          end
        | None => Yielded v (mkRecoverWithEither decorated' (rwe_recover self) None)
        end
      | StopIteration a => StopIteration a
      | Raised x => Raised x
      end
    end.

(** The behaviour of [recover_with_either(io, recover_io)] as a tree. *)
Fixpoint recover_with_either {Y S A} `{HasStopFromError Y}
  (io : Gen Y S A) (recover_io : Val -> Gen Y S A) : Gen Y S A :=
  match io with
  | Return a => Return a
  | Raise x => Raise x
  | Yield v k =>
    match as_StopFromError v with
    | Some error => recover_io error
    | None => Yield v (fun value => recover_with_either (k value) recover_io)
    end
  end.

(** The interpreter loop that [run_either] and the three [run_io] share:
<<
    next_send = None
    while True:
        command = exp.send(next_send)
        step_result = run_single_command(command)
        if isinstance(step_result, StopFromError):
            exp.close()
            return step_result
        next_send = step_result
    except StopIteration as e: return e.value
>>
    [exp.close()] stops a generator that has no [finally] block and is
    not used afterwards. *)
Fixpoint run_loop {Y} (run_single_command : Y -> Res Val) (exp : Gen Y Val Val) : Res Val :=
  match exp with
  | Return value => Ok value
  | Raise x => Exc x
  | Yield command k =>
    match run_single_command command with
    | Exc x => Exc x
    | Ok step_result =>
      if is_StopFromError step_result then Ok step_result
      else run_loop run_single_command (k step_result)
    end
  end.

(* ================================================================= *)
(** * 30_either_basic.py and 31_either_recover_with_either.py *)

Module Either.

(** [type EitherYield[E] = StopFromError[E]] *)
Inductive EitherYield : Type :=
| StopFromError (error : Val).

#[global] Instance EitherYield_stop : HasStopFromError EitherYield :=
  fun v => match v with StopFromError error => Some error end.

(** [type Either[E, A] = Generator[EitherYield[E], EitherSend, A]] *)
Definition Either : Type := Gen EitherYield Val Val.

(** [yield StopFromError(error); raise] *)
Definition halt_with_error (error : Val) : Either :=
  Yield (StopFromError error) (fun _ => Raise RuntimeError).

(** [return value] *)
Definition pure (value : Val) : Either := Return value.

(** [run_either]: the match of the loop has the one case
    [StopFromError() as stp], which closes the program and returns
    [stp]. *)
Definition run_single_command (command : EitherYield) : Res Val :=
  match command with
  | StopFromError error => Ok (VStopFromError error)
  end.

Definition run_either (exp : Either) : Res Val := run_loop run_single_command exp.

(** [divide] of file 30: halts with a message when [b == 0], returns
    [int(a / b)] otherwise (the quotient truncated towards zero; exact
    as long as the float division is, which it is on the operands of
    the examples). *)
Definition divide (a b : Z) : Either :=
  if (b =? 0)%Z then
    yield_from (halt_with_error (VStr ("can't divide " ++ str_int a ++ " by 0")))
               (fun x => Return x)
  else Return (VInt (Z.quot a b)).

(** The arguments reach [divide] as the values the delegations gave. *)
Definition divide_val (a b : Val) : Either :=
  match a, b with
  | VInt a, VInt b => divide a b
  | _, _ => Raise TypeError
  end.

Definition prog1 : Either :=
  yield_from (pure (VInt 6)) (fun a =>
  yield_from (pure (VInt 3)) (fun b =>
  yield_from (divide_val a b) (fun r =>
  Return r))).

Definition prog2 : Either :=
  yield_from (pure (VInt 6)) (fun a =>
  yield_from (halt_with_error (VStr "prog2 mb intentional error")) (fun b =>
  yield_from (divide_val a b) (fun r =>
  Return r))).

Definition prog3 : Either :=
  yield_from (pure (VInt 6)) (fun a =>
  yield_from (pure (VInt 0)) (fun b =>
  yield_from (divide_val a b) (fun r =>
  Return r))).

Definition prog4 : Either :=
  yield_from (recover_with (divide 6 0) (fun _ => VStr "oops")) (fun r =>
  Return r).

(** File 31: the errors are dataclasses. *)
Definition DivideByZero (msg : string) : Val := VObj "DivideByZero" [VStr msg].
Definition InternalError (msg : string) : Val := VObj "InternalError" [VStr msg].

Definition divide31 (a b : Z) : Either :=
  if (b =? 0)%Z then
    yield_from (halt_with_error (DivideByZero ("can't divide " ++ str_int a ++ " by 0")))
               (fun x => Return x)
  else Return (VInt (Z.quot a b)).

Definition prog2_31 : Either :=
  yield_from (pure (VInt 6)) (fun a =>
  yield_from (halt_with_error (InternalError "prog2 mb intentional error")) (fun b =>
  match a, b with
  | VInt a, VInt b => yield_from (divide31 a b) (fun r => Return r)
  | _, _ => Raise TypeError
  end)).

Definition prog3_31 : Either :=
  yield_from (pure (VInt 6)) (fun a =>
  yield_from (pure (VInt 0)) (fun b =>
  match a, b with
  | VInt a, VInt b => yield_from (divide31 a b) (fun r => Return r)
  | _, _ => Raise TypeError
  end)).

(** [_recover_from_internal_error_only] *)
Definition recover_from_internal_error_only (e : Val) : Either :=
  if isinstance_obj e "InternalError" then Return (VInt 0)
  else yield_from (halt_with_error e) (fun x => Return x).

End Either.

(* ================================================================= *)
(** * 22_logging_with_combinators.py *)

Module Logging.

(** [type Severity = Literal["error", "warning", "info"]] *)
Inductive Severity : Type := error | warning | info.

Definition Severity_eqb (a b : Severity) : bool :=
  match a, b with
  | error, error | warning, warning | info, info => true
  | _, _ => false
  end.

(** [severity.upper()] *)
Definition upper (s : Severity) : string :=
  match s with error => "ERROR" | warning => "WARNING" | info => "INFO" end.

(** [type LoggingYield = LogMessage | Nop] *)
Inductive LoggingYield : Type :=
| LogMessage (severity : Severity) (message : string)
| Nop.

(** [isinstance(v, LogMessage)] *)
Definition is_LogMessage (v : LoggingYield) : bool :=
  match v with LogMessage _ _ => true | Nop => false end.

(** [type LoggingGen[A] = Generator[LoggingYield, None, A]] *)
Definition LoggingGen : Type := Gen LoggingYield unit Val.

(** The class [Logging]: a wrapper whose [send] is that of the
    decorated generator. *)
Record LoggingObj (G : Type) : Type := mkLogging { l_decorated : G }.

#[global] Instance Logging_send {G} `{Sendable G LoggingYield unit Val}
  : Sendable (LoggingObj G) LoggingYield unit Val :=
  fun self value =>
    match send (l_decorated self) value with
    | Yielded v d' => Yielded v (mkLogging d')
    | StopIteration a => StopIteration a
    | Raised x => Raised x
    end.

(** [_MuteLogging] and its [send]:
<<
    v = self.decorated.send(value)
    if isinstance(v, LogMessage):
        return Nop()
    return v
>>
*)
Record MuteLogging (G : Type) : Type := mkMuteLogging { m_decorated : G }.

#[global] Instance MuteLogging_send {G} `{Sendable G LoggingYield unit Val}
  : Sendable (MuteLogging G) LoggingYield unit Val :=
  fun self value =>
    match send (m_decorated self) value with
    | Yielded v d' =>
      if is_LogMessage v then Yielded Nop (mkMuteLogging d')
      else Yielded v (mkMuteLogging d')
    | StopIteration a => StopIteration a
    | Raised x => Raised x
    end.

(** [_TransformSeverity] and its [send]. *)
Record TransformSeverity (G : Type) : Type := mkTransformSeverity {
  t_decorated : G;
  from_severity : Severity;
  to_severity : Severity
}.

#[global] Instance TransformSeverity_send {G} `{Sendable G LoggingYield unit Val}
  : Sendable (TransformSeverity G) LoggingYield unit Val :=
  fun self value =>
    match send (t_decorated self) value with
    | Yielded v d' =>
      let self' := mkTransformSeverity d' (from_severity self) (to_severity self) in
      match v with
      | LogMessage severity message =>
        if Severity_eqb severity (from_severity self)
        then Yielded (LogMessage (to_severity self) message) self'
        else Yielded v self'
      | Nop => Yielded v self'
      end
    | StopIteration a => StopIteration a
    | Raised x => Raised x
    end.

(** [Logging.muted]: [Logging(_MuteLogging(self))], as an object. *)
Definition muted_obj {G} (self : LoggingObj G) : LoggingObj (MuteLogging (LoggingObj G)) :=
  mkLogging (mkMuteLogging self).

(** The behaviour of [self.muted()] as a tree. *)
Fixpoint muted (self : LoggingGen) : LoggingGen :=
  match self with
  | Return a => Return a
  | Raise x => Raise x
  | Yield v k =>
    if is_LogMessage v then Yield Nop (fun value => muted (k value))
    else Yield v (fun value => muted (k value))
  end.

(** The behaviour of [_TransformSeverity(self, from, to)] as a tree. *)
Fixpoint transform_severity (self : LoggingGen) (from_sev to_sev : Severity) : LoggingGen :=
  match self with
  | Return a => Return a
  | Raise x => Raise x
  | Yield v k =>
    let k' := fun value => transform_severity (k value) from_sev to_sev in
    match v with
    | LogMessage severity message =>
      if Severity_eqb severity from_sev then Yield (LogMessage to_sev message) k'
      else Yield v k'
    | Nop => Yield v k'
    end
  end.

Definition errors_as_warning (self : LoggingGen) : LoggingGen :=
  transform_severity self error warning.

(** The basic operations: [yield LogMessage(sev, msg)]. *)
Definition log (sev : Severity) (msg : string) : LoggingGen :=
  Yield (LogMessage sev msg) (fun _ => Return VNone).
Definition log_info (msg : string) : LoggingGen := log info msg.
Definition log_warning (msg : string) : LoggingGen := log warning msg.
Definition log_error (msg : string) : LoggingGen := log error msg.

(** [run_printing]: the lines printed, and the value. *)
Fixpoint run_printing_from (printed : list string) (exp : LoggingGen)
  : Res (Val * list string) :=
  match exp with
  | Return value => Ok (value, printed)
  | Raise x => Exc x
  | Yield command k =>
    match command with
    | LogMessage severity msg =>
      run_printing_from (printed ++ [(upper severity ++ ": " ++ msg)%string])%list (k tt)
    | Nop => run_printing_from printed (k tt)
    end
  end.
Definition run_printing (exp : LoggingGen) : Res (Val * list string) :=
  run_printing_from [] exp.

(** [run_muted] *)
Fixpoint run_muted (exp : LoggingGen) : Res Val :=
  match exp with
  | Return value => Ok value
  | Raise x => Exc x
  | Yield command k =>
    match command with
    | LogMessage _ _ => run_muted (k tt)
    | Nop => run_muted (k tt)
    end
  end.

(** [run_collecting]: the loop with [log_messages] as it stands. *)
Fixpoint run_collecting_from (log_messages : list LoggingYield) (exp : LoggingGen)
  : Res (Val * list LoggingYield) :=
  match exp with
  | Return value => Ok (value, log_messages)
  | Raise x => Exc x
  | Yield command k =>
    match command with
    | LogMessage _ _ => run_collecting_from (log_messages ++ [command])%list (k tt)
    | Nop => run_collecting_from log_messages (k tt)
    end
  end.
Definition run_collecting (exp : LoggingGen) : Res (Val * list LoggingYield) :=
  run_collecting_from [] exp.

(** The examples of the file. *)
Definition add (x y : Z) : LoggingGen :=
  yield_from (log_info ("adding " ++ str_int x ++ " and " ++ str_int y)) (fun _ =>
  Return (VInt (x + y))).

Definition divide (x y : Z) : LoggingGen :=
  yield_from (log_info ("trying to divide " ++ str_int x ++ " and " ++ str_int y)) (fun _ =>
  if (y =? 0)%Z then
    yield_from (log_error ("Can't divide " ++ str_int x ++ " by 0, defaulting to -1")) (fun _ =>
    Return (VInt (-1)))
  else Return (VInt (Z.quot x y))).

Definition prog1 : LoggingGen :=
  yield_from (log_info "Started prog1") (fun _ =>
  yield_from (muted (add 17 3)) (fun c =>
  yield_from (muted (add 2 (-2))) (fun d =>
  match c, d with
  | VInt c, VInt d =>
    yield_from (errors_as_warning (divide c d)) (fun r =>
    yield_from (log_info "Finished prog1") (fun _ =>
    Return r))
  | _, _ => Raise TypeError
  end))).

End Logging.

(* ================================================================= *)
(** * 70_state.py and 71_state_fixed.py *)

(** The state classes of the examples, shared by the two files:
    [ContainerA] with the field [value_int], [ContainerB] with
    [value_str], and [ContainerAB(ContainerA, ContainerB)], whose
    dataclass fields are [value_str] then [value_int]. *)
Inductive PyClass : Type := cls_ContainerA | cls_ContainerB | cls_ContainerAB.

Inductive Container : Type :=
| ContainerA (value_int : Z)
| ContainerB (value_str : string)
| ContainerAB (value_str : string) (value_int : Z).

Definition type_of (o : Container) : PyClass :=
  match o with
  | ContainerA _ => cls_ContainerA
  | ContainerB _ => cls_ContainerB
  | ContainerAB _ _ => cls_ContainerAB
  end.

Definition issubclass (c d : PyClass) : bool :=
  match c, d with
  | cls_ContainerA, cls_ContainerA => true
  | cls_ContainerB, cls_ContainerB => true
  | cls_ContainerAB, _ => true
  | _, _ => false
  end.

Definition isinstance (o : Container) (c : PyClass) : bool := issubclass (type_of o) c.

(** [o.value_int] and [o.value_str], where the class has the field. *)
Definition get_value_int (o : Container) : option Z :=
  match o with
  | ContainerA i => Some i
  | ContainerB _ => None
  | ContainerAB _ i => Some i
  end.

Definition get_value_str (o : Container) : option string :=
  match o with
  | ContainerA _ => None
  | ContainerB s => Some s
  | ContainerAB s _ => Some s
  end.

(** The requests of both files. *)
Inductive StateYield (S : Type) : Type :=
| GetState (state_type : PyClass)
| SetState (state : S).
Arguments GetState {S} state_type.
Arguments SetState {S} state.

(** [type State[S, A] = Generator[StateYield, S | None, A]] *)
Definition State (S A : Type) : Type := Gen (StateYield S) (option S) A.

(** [yield SetState(state)] *)
Definition set_state {S} (state : S) : State S unit :=
  Yield (SetState state) (fun _ => Return tt).

(** [r = yield GetState(state_type); assert r is not None; return r] *)
Definition get_state {S} (state_type : PyClass) : State S S :=
  Yield (GetState state_type)
        (fun r => match r with
                  | Some r => Return r
                  | None => Raise AssertionError
                  end).

Module State.

(** [run_state] of file 70: [SetState(value)] replaces the cell. *)
Fixpoint run_state_from {S A} (internal_state : S) (et : State S A) : Res (A * S) :=
  match et with
  | Return value => Ok (value, internal_state)
  | Raise x => Exc x
  | Yield s k =>
    match s with
    | GetState _ => run_state_from internal_state (k (Some internal_state))
    | SetState value => run_state_from value (k None)
    end
  end.

Definition run_state {S A} (et : State S A) (initial_state : S) : Res (A * S) :=
  run_state_from initial_state et.

Definition prog1 : State Container Z :=
  yield_from (set_state (ContainerA 1)) (fun _ => Return (1 + 2)%Z).

Definition prog2 : State Container Z :=
  yield_from (set_state (ContainerB "hello")) (fun _ => Return (7 + 8)%Z).

Definition prog3 : State Container Container :=
  yield_from prog1 (fun _ =>
  yield_from prog2 (fun _ =>
  yield_from (get_state cls_ContainerA) (fun ca =>
  Return ca))).

End State.

Module StateFixed.

(** The [update] methods of file 71, as the content of [self] after the
    call.  [internal_state.update(value)] dispatches on the class of
    [internal_state]:
    - [ContainerA.update] copies [value_int] when [other] is an
      instance of [ContainerA],
    - [ContainerB.update] copies [value_str] when [other] is an
      instance of [ContainerB],
    - [ContainerAB.update] calls the one, then the other. *)
Definition ContainerA_update (self other : Container) : Container :=
  if isinstance other cls_ContainerA then
    match self, get_value_int other with
    | ContainerA _, Some i => ContainerA i
    | ContainerAB s _, Some i => ContainerAB s i
    | _, _ => self
    end
  else self.

Definition ContainerB_update (self other : Container) : Container :=
  if isinstance other cls_ContainerB then
    match self, get_value_str other with
    | ContainerB _, Some s => ContainerB s
    | ContainerAB _ i, Some s => ContainerAB s i
    | _, _ => self
    end
  else self.

Definition ContainerAB_update (self other : Container) : Container :=
  let self := if isinstance other cls_ContainerA then ContainerA_update self other else self in
  if isinstance other cls_ContainerB then ContainerB_update self other else self.

Definition update (self other : Container) : Container :=
  match type_of self with
  | cls_ContainerA => ContainerA_update self other
  | cls_ContainerB => ContainerB_update self other
  | cls_ContainerAB => ContainerAB_update self other
  end.

(** [run_state] of file 71: [SetState(value)] is
    [internal_state.update(value)].  The cell is one object, changed in
    place; the reply to [GetState] is that object, which this embedding
    passes as its content at the time of the reply. *)
Fixpoint run_state_from {A} (internal_state : Container) (et : State Container A)
  : Res (A * Container) :=
  match et with
  | Return value => Ok (value, internal_state)
  | Raise x => Exc x
  | Yield s k =>
    match s with
    | GetState _ => run_state_from internal_state (k (Some internal_state))
    | SetState value => run_state_from (update internal_state value) (k None)
    end
  end.

Definition run_state {A} (et : State Container A) (initial_state : Container)
  : Res (A * Container) :=
  run_state_from initial_state et.

Definition prog1 : State Container Z :=
  yield_from (set_state (ContainerA 1)) (fun _ => Return (1 + 2)%Z).

Definition prog2 : State Container Z :=
  yield_from (set_state (ContainerB "hello")) (fun _ => Return (7 + 8)%Z).

Definition prog3 : State Container Container :=
  yield_from prog1 (fun _ =>
  yield_from prog2 (fun _ =>
  yield_from (get_state cls_ContainerA) (fun ca =>
  Return ca))).

End StateFixed.

(* ================================================================= *)
(** * z0_io_basic_blocking.py, 41_io_basic_async.py, 50_io_deps.py *)

(** The requests of the three files together.  File z0 has
    [StopFromError] and [Gather], file 41 adds [Sleep], file 50 adds
    [RequestDependency]; a request that the [match] of an interpreter has
    no case for falls through it, and the interpreter replies [None].
    The sub-programs of a [Gather] are generator objects that nothing
    else drives and that occur once in the list, so each is given by its
    body. *)
Inductive IOYield : Type :=
| StopFromError (error : Val)
| Sleep (delay : Q)
| Gather (subtasks : list (Gen IOYield Val Val))
| RequestDependency (dep_type : string).

#[global] Instance IOYield_stop : HasStopFromError IOYield :=
  fun v => match v with StopFromError error => Some error | _ => None end.

(** [type IO[E, A] = Generator[IOYield[E], IOSend, A]] *)
Definition IO : Type := Gen IOYield Val Val.

(** [yield StopFromError(error); raise] *)
Definition halt_with_error (error : Val) : IO :=
  Yield (StopFromError error) (fun _ => Raise RuntimeError).

(** [return value] *)
Definition pure (value : Val) : IO := Return value.

(** [join] of file z0: [r = yield Gather(sub_tasks); return r] *)
Definition join (sub_tasks : list IO) : IO :=
  Yield (Gather sub_tasks) (fun r => Return r).

(** [gather] of files 41 and 50:
<<
    r = yield Gather(sub_tasks)
    if isinstance(r, ExitInPlace):
        yield from halt_with_error(r.error)
        raise
    return r
>>
*)
Definition gather (sub_tasks : list IO) : IO :=
  Yield (Gather sub_tasks)
        (fun r => match r with
                  | VExitInPlace error =>
                    yield_from (halt_with_error error) (fun _ => Raise RuntimeError)
                  | _ => Return r
                  end).

(** [yield Sleep(delay)] *)
Definition sleep (delay : Q) : IO :=
  Yield (Sleep delay) (fun _ => Return VNone).

(** [get_dependency] of file 50 *)
Definition get_dependency (dt : string) : IO :=
  Yield (RequestDependency dt)
        (fun r => if is_ExitInPlace r then Raise AssertionError else Return r).

(** A list comprehension [[f(a) for a in l]] whose [f] may raise. *)
Fixpoint comprehension {A B} (f : A -> Res B) (l : list A) : Res (list B) :=
  match l with
  | [] => Ok []
  | a :: l' =>
    match f a with
    | Exc x => Exc x
    | Ok b =>
      match comprehension f l' with
      | Exc x => Exc x
      | Ok bs => Ok (b :: bs)
      end
    end
  end.

(** [for sr in sub_results: if isinstance(sr, StopFromError): ...]: the
    error of the first [StopFromError] of the list, in list order. *)
Fixpoint first_error (sub_results : list Val) : option Val :=
  match sub_results with
  | [] => None
  | VStopFromError error :: _ => Some error
  | _ :: rest => first_error rest
  end.

(** The examples that files z0 and 41 share, up to the gathering
    operation and the sleeps of file 41. *)
Definition PrefixToLong : Val := VObj "PrefixToLong" [].
Definition SuffixToLong : Val := VObj "SuffixToLong" [].

(** [r1, r2 = ...; return r1 + r2] *)
Definition add_pair (r : Val) : IO :=
  match r with
  | VList [VStr r1; VStr r2] => Return (VStr (r1 ++ r2))
  | VList [VInt r1; VInt r2] => Return (VInt (r1 + r2))
  | VList [_; _] => Raise TypeError
  | VList _ => Raise ValueError
  | _ => Raise TypeError
  end.

(** The recovery function of [main]:
    ["suffix error" if isinstance(e, SuffixToLong) else "prefix error"] *)
Definition main_recover (e : Val) : Val :=
  if isinstance_obj e "SuffixToLong" then VStr "suffix error" else VStr "prefix error".

Module IOBlocking.

(** [run_single_command] and [run_io] of file z0: the sub-programs are
    run one after the other, and the first [StopFromError] among their
    results is returned as it is. *)
Fixpoint run_single_command (command : IOYield) : Res Val :=
  match command with
  | StopFromError error => Ok (VStopFromError error)
  | Gather sub_commands =>
    match comprehension (run_loop run_single_command) sub_commands with
    | Exc x => Exc x
    | Ok sub_results =>
      match first_error sub_results with
      | Some error => Ok (VStopFromError error)
      | None => Ok (VList sub_results)
      end
    end
  | _ => Ok VNone
  end.

Definition run_io (exp : IO) : Res Val := run_loop run_single_command exp.

Definition prefix_of (s : string) (length : nat) : IO :=
  if (String.length s <? length)%nat
  then yield_from (halt_with_error PrefixToLong) (fun x => Return x)
  else Return (VStr (substring 0 length s)).

Definition suffix_of (s : string) (length : nat) : IO :=
  if (String.length s <? length)%nat
  then yield_from (halt_with_error SuffixToLong) (fun x => Return x)
  else Return (VStr (substring (String.length s - length) length s)).

Definition prog1 : IO :=
  yield_from (join [prefix_of "abcdefgh" 4; suffix_of "abcdefgh" 2]) add_pair.

Definition prog2 : IO :=
  yield_from (join [prefix_of "abcdefgh" 4; suffix_of "abcdefgh" 20]) add_pair.

End IOBlocking.

Module IODeps.

(** [run_single_command] and [run_io] of file 50.  [time.sleep(delay)]
    returns after the delay (it raises [ValueError] on a negative one),
    and the function then returns [None]; a halted sub-program is
    answered with [ExitInPlace]; a dependency is resolved by
    [dep_resolver.resolve_dependendcy]. *)
Section WithResolver.
Variable dep_resolver : string -> Res Val.

Fixpoint run_single_command (command : IOYield) : Res Val :=
  match command with
  | StopFromError error => Ok (VStopFromError error)
  | Sleep delay => if Qle_bool 0 delay then Ok VNone else Exc ValueError
  | Gather sub_commands =>
    match comprehension (run_loop run_single_command) sub_commands with
    | Exc x => Exc x
    | Ok sub_results =>
      match first_error sub_results with
      | Some error => Ok (VExitInPlace error)
      | None => Ok (VList sub_results)
      end
    end
  | RequestDependency d => dep_resolver d
  end.

Definition run_io (exp : IO) : Res Val := run_loop run_single_command exp.
End WithResolver.

End IODeps.

Module IOAsync.

(** ** What the coroutines compute

    [run_single_command] and [run_io] of file 41, with every [await]
    read as a call: [await asyncio.sleep(delay)] returns after the
    delay, and [await asyncio.gather] of the runs [run_io(st) for st in sub_tasks]
    gives the results of the sub-runs in the order of [sub_tasks]. *)
Fixpoint run_single_command (command : IOYield) : Res Val :=
  match command with
  | StopFromError error => Ok (VStopFromError error)
  | Sleep delay => Ok VNone
  | Gather sub_tasks =>
    match comprehension (run_loop run_single_command) sub_tasks with
    | Exc x => Exc x
    | Ok sub_results =>
      match first_error sub_results with
      | Some error => Ok (VExitInPlace error)
      | None => Ok (VList sub_results)
      end
    end
  | RequestDependency _ => Ok VNone
  end.

Definition run_io (exp : IO) : Res Val := run_loop run_single_command exp.

(** ** How the event loop runs them

    A task is the coroutine [run_io(exp)] at one of its suspension
    points.
    - [Running exp]: about to send; [exp] is what the generator does
      from the value sent on.
    - [Sleeping k]: in [await asyncio.sleep(delay)].
    - [Gathering subs k]: in [await asyncio.gather(...)], with one task
      per sub-program.
    - [Done r]: returned, or raised. *)
Inductive Task : Type :=
| Running (exp : IO)
| Sleeping (k : Val -> IO)
| Gathering (subs : list Task) (k : Val -> IO)
| Done (r : Res Val).

(** The exception of a sub-task that raised: [asyncio.gather] passes it
    to the awaiting task at once. *)
Fixpoint raised (subs : list Task) : option Exn :=
  match subs with
  | [] => None
  | Done (Exc x) :: _ => Some x
  | _ :: rest => raised rest
  end.

(** The results of the sub-tasks in list order, once all have
    returned. *)
Fixpoint results (subs : list Task) : option (list Val) :=
  match subs with
  | [] => Some []
  | Done (Ok v) :: rest =>
    match results rest with
    | Some vs => Some (v :: vs)
    | None => None
    end
  | _ :: _ => None
  end.

(** The loop over [sub_results] after the join. *)
Definition gather_reply (sub_results : list Val) : Val :=
  match first_error sub_results with
  | Some error => VExitInPlace error
  | None => VList sub_results
  end.

(** [l] with [f] applied to its element of index [i]; [l] itself when
    it has no such element. *)
Section AtIndex.
Context {A : Type} (f : A -> A).
Fixpoint at_index (i : nat) (l : list A) {struct l} : list A :=
  match l with
  | [] => []
  | s :: rest =>
    match i with
    | O => f s :: rest
    | Datatypes.S i' => s :: at_index i' rest
    end
  end.
End AtIndex.

(** One step of the event loop.  [path] chooses the task that runs: in
    a [Gathering], its head is the index of a sub-task and its tail the
    choice inside that sub-task.  The order in which timers fire and
    tasks are resumed is therefore any order. *)
Fixpoint step (path : list nat) (t : Task) {struct t} : Task :=
  match t with
  | Running exp =>
    match exp with
    | Return value => Done (Ok value)
    | Raise x => Done (Exc x)
    | Yield command k =>
      match command with
      | StopFromError error => Done (Ok (VStopFromError error))
      | Sleep _ => Sleeping k
      | Gather sub_tasks => Gathering (map Running sub_tasks) k
      | RequestDependency _ => Running (k VNone)
      end
    end
  | Sleeping k => Running (k VNone)
  | Gathering subs k =>
    match raised subs with
    | Some x => Done (Exc x)
    | None =>
      match results subs with
      | Some sub_results => Running (k (gather_reply sub_results))
      | None =>
        match path with
        | [] => t
        | i :: path' => Gathering (at_index (step path') i subs) k
        end
      end
    end
  | Done r => Done r
  end.

(** The event loop run along a schedule. *)
Definition run_schedule (schedule : list (list nat)) (t : Task) : Task :=
  fold_left (fun t path => step path t) schedule t.

(** [asyncio.run(run_io(exp))] under a schedule. *)
Definition run_async (schedule : list (list nat)) (exp : IO) : Task :=
  run_schedule schedule (Running exp).

(** The path to the leftmost task that can run. *)
Section Leftmost.
Variable leftmost : Task -> list nat.
Fixpoint leftmost_in (i : nat) (l : list Task) {struct l} : list nat :=
  match l with
  | [] => []
  | Done _ :: rest => leftmost_in (Datatypes.S i) rest
  | s :: _ => i :: leftmost s
  end.
End Leftmost.

Fixpoint leftmost (t : Task) : list nat :=
  match t with
  | Gathering subs _ => leftmost_in leftmost O subs
  | _ => []
  end.

(** The scheduler that always runs the leftmost task, for [n] steps. *)
Fixpoint run_leftmost (n : nat) (t : Task) : Task :=
  match n with
  | O => t
  | Datatypes.S n' => run_leftmost n' (step (leftmost t) t)
  end.

Definition prefix_of (s : string) (length : nat) : IO :=
  if (String.length s <? length)%nat
  then yield_from (halt_with_error PrefixToLong) (fun x => Return x)
  else yield_from (sleep (1 # 1)) (fun _ => Return (VStr (substring 0 length s))).

Definition suffix_of (s : string) (length : nat) : IO :=
  if (String.length s <? length)%nat
  then yield_from (halt_with_error SuffixToLong) (fun x => Return x)
  else yield_from (sleep (1 # 2)) (fun _ =>
       Return (VStr (substring (String.length s - length) length s))).

Definition prog1 : IO :=
  yield_from (gather [prefix_of "abcdefgh" 4; suffix_of "abcdefgh" 2]) add_pair.

Definition prog2 : IO :=
  yield_from (gather [prefix_of "abcdefgh" 4; suffix_of "abcdefgh" 20]) add_pair.

End IOAsync.

(* ================================================================= *)
(** * 32_either_with_sugar.py *)

Module EitherSugar.

(** The class [Either]: a wrapper whose [send] is that of the decorated
    generator. *)
Record EitherObj (G : Type) : Type := mkEither { e_decorated : G }.

#[global] Instance Either_send {G} `{Sendable G Either.EitherYield Val Val}
  : Sendable (EitherObj G) Either.EitherYield Val Val :=
  fun self value =>
    match send (e_decorated self) value with
    | Yielded v d' => Yielded v (mkEither d')
    | StopIteration a => StopIteration a
    | Raised x => Raised x
    end.

(** [eitherable]: the decorated generator function returns
    [Either(f(...))]. *)
Definition eitherable (body : Either.Either)
  : EitherObj (Generator Either.EitherYield Val Val) :=
  mkEither (Unstarted body).

(** [Either.error] and [Either.pure] *)
Definition error (e : Val) : EitherObj (Generator Either.EitherYield Val Val) :=
  eitherable (Either.halt_with_error e).

Definition pure (value : Val) : EitherObj (Generator Either.EitherYield Val Val) :=
  eitherable (Either.pure value).

(** [self.recover_with(f)]: [Either(_RecoverWith(f, self))] *)
Definition recover_with {G} (self : EitherObj G) (f : Val -> Val)
  : EitherObj (RecoverWith (EitherObj G) Val) :=
  mkEither (mkRecoverWith self f).

(** [self.recover_with_either(recover_either)]:
    [Either(_RecoverWithEither(self, recover_either))] *)
Definition recover_with_either {G1 G2} (self : EitherObj G1)
  (recover_either : Val -> EitherObj G2)
  : EitherObj (RecoverWithEither (EitherObj G1) (EitherObj G2)) :=
  mkEither (mkRecoverWithEither self recover_either None).

(** [run_either] on an object.  The only request is [StopFromError], on
    which the loop returns, so the loop sends once. *)
Definition run_either {G} `{Sendable G Either.EitherYield Val Val} (exp : G) : Res Val :=
  match send exp VNone with
  | Yielded (Either.StopFromError error) _ => Ok (VStopFromError error)
  | StopIteration value => Ok value
  | Raised x => Exc x
  end.

End EitherSugar.

(* ================================================================= *)
(** * 00_iterators_raw.py and 01_iterators_sugar.py *)

Module Iterators.

(** The class [RangeIterator] with its two fields. *)
Record RangeIterator : Type := mkRangeIterator {
  _current : Z;
  _end : Z
}.

(** [RangeIterator(start, end)]: [__init__] asserts [start <= end]. *)
Definition RangeIterator_init (start end_ : Z) : Res RangeIterator :=
  if (start <=? end_)%Z then Ok (mkRangeIterator start end_)
  else Exc AssertionError.

(** [__next__]: [None] is [StopIteration]; otherwise the value and the
    object after [self._current += 1]. *)
Definition RangeIterator_next (self : RangeIterator) : option (Z * RangeIterator) :=
  if (_current self =? _end self)%Z then None
  else Some (_current self, mkRangeIterator (_current self + 1) (_end self)).

(** The loop of [main]: [while True: x = next(iterator)] until
    [StopIteration], with the values seen; [None] when [fuel] calls did
    not reach the end. *)
Fixpoint drain (fuel : nat) (iterator : RangeIterator) : option (list Z) :=
  match fuel with
  | O => None
  | Datatypes.S fuel' =>
    match RangeIterator_next iterator with
    | None => Some []
    | Some (x, iterator') =>
      match drain fuel' iterator' with
      | Some xs => Some (x :: xs)
      | None => None
      end
    end
  end.

(** The loop [while i < end: yield i; i += 1] of [range_iterator], run
    for at most [fuel] tests of its condition. *)
Fixpoint range_loop (fuel : nat) (i end_ : Z) : Gen Z unit unit :=
  match fuel with
  | O => Return tt
  | Datatypes.S fuel' =>
    if (i <? end_)%Z then Yield i (fun _ => range_loop fuel' (i + 1) end_)
    else Return tt
  end.

(** [range_iterator(start, end)]: the assertion is in the generator
    body, so it fails at the first [next]; the loop tests its condition
    [end - start + 1] times. *)
Definition range_iterator (start end_ : Z) : Gen Z unit unit :=
  if (start <=? end_)%Z
  then range_loop (Datatypes.S (Z.to_nat (end_ - start))) start end_
  else Raise AssertionError.

(** [for x in g]: the values of an iterator, or the exception that ends
    the loop. *)
Fixpoint for_in {Y A} (g : Gen Y unit A) : Res (list Y) :=
  match g with
  | Return _ => Ok []
  | Raise x => Exc x
  | Yield y k =>
    match for_in (k tt) with
    | Ok ys => Ok (y :: ys)
    | Exc x => Exc x
    end
  end.

End Iterators.

(* ================================================================= *)
(** * 10_binary_tree_traversal.py *)

Module TreeWalk.

(** [BinaryTree[A]]: a value, and a left and a right subtree or [None]. *)
Inductive BinaryTree (A : Type) : Type :=
| Node (value : A) (left right : option (BinaryTree A)).
Arguments Node {A} value left right.

(** [type WalkDirection = Literal["left", "right"]] *)
Inductive WalkDirection : Type := go_left | go_right.

(** [type TreeWalkGen[A] = Generator[A, WalkDirection, None]]; the value
    sent is [None] when the driver calls [next]. *)
Definition TreeWalkGen (A : Type) : Type := Gen A (option WalkDirection) unit.

(** [binary_tree_walk]: the loop [while current is not None], whose body
    yields the value and goes left when it is sent ["left"], right on
    anything else. *)
Fixpoint walk_from {A} (current : BinaryTree A) : TreeWalkGen A :=
  match current with
  | Node value current_left current_right =>
    Yield value
          (fun where_to_next =>
             match where_to_next with
             | Some go_left =>
               match current_left with
               | Some t => walk_from t
               | None => Return tt
               end
             | _ =>
               match current_right with
               | Some t => walk_from t
               | None => Return tt
               end
             end)
  end.

Definition binary_tree_walk {A} (tree : BinaryTree A) : TreeWalkGen A := walk_from tree.

(** [left_only_path_driver]: [next], then [send("left")] until
    [StopIteration], with the values collected. *)
Fixpoint left_only_path_from {A} (collected_list : list A) (walk_gen : TreeWalkGen A)
  : Res (list A) :=
  match walk_gen with
  | Return _ => Ok collected_list
  | Raise x => Exc x
  | Yield value k => left_only_path_from (collected_list ++ [value])%list (k (Some go_left))
  end.

Definition left_only_path_driver {A} (walk_gen : TreeWalkGen A) : Res (list A) :=
  left_only_path_from [] walk_gen.

(** [random_path_driver], the successive results of [random.choice]
    being [choice 0], [choice 1], ...: the values collected and the
    directions chosen, zipped. *)
Fixpoint random_path_from {A} (choice : nat -> WalkDirection) (n : nat)
  (collected_list : list A) (chosen_directions : list WalkDirection)
  (walk_gen : TreeWalkGen A) : Res (list (A * WalkDirection)) :=
  match walk_gen with
  | Return _ => Ok (combine collected_list chosen_directions)
  | Raise x => Exc x
  | Yield value k =>
    random_path_from choice (Datatypes.S n)
                     (collected_list ++ [value])%list
                     (chosen_directions ++ [choice n])%list
                     (k (Some (choice n)))
  end.

Definition random_path_driver {A} (choice : nat -> WalkDirection) (walk_gen : TreeWalkGen A)
  : Res (list (A * WalkDirection)) :=
  random_path_from choice O [] [] walk_gen.

(** The tree of [main]. *)
Definition root : BinaryTree Z :=
  Node 0%Z
       (Some (Node 1%Z (Some (Node 2%Z None (Some (Node 3%Z None None)))) None))
       (Some (Node 4%Z (Some (Node 5%Z None None)) (Some (Node 6%Z None None)))).

End TreeWalk.

(* ================================================================= *)
(** * Vocabulary of the statements *)

(** What [recover_with] leaves of what a driver sees of a program: the
    requests before the first [StopFromError], and then the completion
    with the recovered value. *)
Fixpoint recovered {Y A} `{HasStopFromError Y} (recover : Val -> A)
  (t : list Y) (r : option (Res A)) : list Y * option (Res A) :=
  match t with
  | [] => ([], r)
  | y :: t' =>
    match as_StopFromError y with
    | Some error => ([], Some (Ok (recover error)))
    | None => let (t'', r') := recovered recover t' r in (y :: t'', r')
    end
  end.

(** The request a driver sees through [_MuteLogging]. *)
Definition mute_request (v : Logging.LoggingYield) : Logging.LoggingYield :=
  if Logging.is_LogMessage v then Logging.Nop else v.

(** Two results that are the same value, or both an exception. *)
Definition same_outcome {A} (r1 r2 : Res A) : Prop :=
  match r1, r2 with
  | Ok a, Ok b => a = b
  | Exc _, Exc _ => True
  | _, _ => False
  end.

(** A program that a driver [run] takes to a value. *)
Definition returns (run : IO -> Res Val) (st : IO) (v : Val) : Prop := run st = Ok v.

(** What an [asyncio] task will return: the sub-tasks of a [Gathering]
    in list order, then the parent on their results. *)
Fixpoint outcome (t : IOAsync.Task) : Res Val :=
  match t with
  | IOAsync.Running exp => IOAsync.run_io exp
  | IOAsync.Sleeping k => IOAsync.run_io (k VNone)
  | IOAsync.Gathering subs k =>
    match comprehension outcome subs with
    | Exc x => Exc x
    | Ok sub_results => IOAsync.run_io (k (IOAsync.gather_reply sub_results))
    end
  | IOAsync.Done r => r
  end.

(** The sub-tasks that returned the values [vs]. *)
Definition returned (vs : list Val) : list IOAsync.Task :=
  map (fun v => IOAsync.Done (Ok v)) vs.

(** Which sub-tasks of a [Gathering] have ended, and how. *)
Definition ended_subtasks (t : IOAsync.Task) : list (option (Res Val)) :=
  match t with
  | IOAsync.Gathering subs _ =>
    map (fun s => match s with IOAsync.Done r => Some r | _ => None end) subs
  | _ => []
  end.

(** The request a driver sees through [_TransformSeverity]. *)
Definition transform_request (from_sev to_sev : Logging.Severity) (v : Logging.LoggingYield)
  : Logging.LoggingYield :=
  match v with
  | Logging.LogMessage severity message =>
    if Logging.Severity_eqb severity from_sev then Logging.LogMessage to_sev message else v
  | Logging.Nop => v
  end.

(** The line [run_printing] prints for a message. *)
Definition printed_line (v : Logging.LoggingYield) : string :=
  match v with
  | Logging.LogMessage severity msg => Logging.upper severity ++ ": " ++ msg
  | Logging.Nop => ""
  end.

(** The severity of a message, if it is one. *)
Definition severity_of (v : Logging.LoggingYield) : option Logging.Severity :=
  match v with
  | Logging.LogMessage severity _ => Some severity
  | Logging.Nop => None
  end.

(** The integers [start], [start + 1], ..., [end - 1]. *)
Definition Zrange (start end_ : Z) : list Z :=
  map (fun k => (start + Z.of_nat k)%Z) (seq 0 (Z.to_nat (end_ - start))).

(** The values of a tree from its root down the left children. *)
Fixpoint left_spine {A} (t : TreeWalk.BinaryTree A) : list A :=
  match t with
  | TreeWalk.Node value l _ =>
    value :: match l with
             | Some t' => left_spine t'
             | None => []
             end
  end.

(** The nodes of a tree from its root along the directions [choice n],
    [choice (n + 1)], ..., each with the direction taken from it. *)
Fixpoint path_along {A} (choice : nat -> TreeWalk.WalkDirection) (n : nat)
  (t : TreeWalk.BinaryTree A) : list (A * TreeWalk.WalkDirection) :=
  match t with
  | TreeWalk.Node value l r =>
    (value, choice n)
      :: match (match choice n with TreeWalk.go_left => l | TreeWalk.go_right => r end) with
         | Some t' => path_along choice (Datatypes.S n) t'
         | None => []
         end
  end.

(** What [recover_with_either] leaves of what a driver sees of a
    program under [replies]: the requests before the first
    [StopFromError(e)], and from there what the driver sees of [g(e)]
    under the replies that remain. *)
Fixpoint switched {Y S A} `{HasStopFromError Y} (g : Val -> Gen Y S A)
  (replies : list S) (t : list Y) (r : option (Res A)) : list Y * option (Res A) :=
  match t with
  | [] => ([], r)
  | y :: t' =>
    match as_StopFromError y with
    | Some error => trace replies (g error)
    | None => let (t'', r') := switched g (tl replies) t' r in (y :: t'', r')
    end
  end.

(** The sub-programs of a request. *)
Definition subtasks_of (command : IOYield) : list IO :=
  match command with
  | Gather subtasks => subtasks
  | _ => []
  end.

(** Induction on programs, with the sub-programs of a [Gather] as
    premises; [IOYield] is nested in [Gen] and [list], so the principle
    is written out. *)
Section GenInduction.
Context {Y : Type} (P : Gen Y Val Val -> Prop) (Q : Y -> Prop).
Hypothesis HReturn : forall value, P (Return value).
Hypothesis HRaise : forall x, P (Raise x).
Hypothesis HYield : forall command k, Q command -> (forall v, P (k v)) -> P (Yield command k).
Hypothesis HQ : forall command, Q command.

Fixpoint Gen_ind_with (g : Gen Y Val Val) : P g :=
  match g with
  | Return value => HReturn value
  | Raise x => HRaise x
  | Yield command k => HYield k (HQ command) (fun v => Gen_ind_with (k v))
  end.
End GenInduction.

Section ForallList.
Context {A : Type} (P : A -> Prop) (HP : forall a, P a).
Fixpoint Forall_all (l : list A) : Forall P l :=
  match l with
  | [] => Forall_nil P
  | a :: l' => Forall_cons a (HP a) (Forall_all l')
  end.
End ForallList.

Section IOInduction.
Variable P : IO -> Prop.
Hypothesis HReturn : forall value, P (Return value).
Hypothesis HRaise : forall x, P (Raise x).
Hypothesis HYield :
  forall command k, Forall P (subtasks_of command) -> (forall v, P (k v)) -> P (Yield command k).

Fixpoint IOYield_subtasks_ind (command : IOYield) : Forall P (subtasks_of command) :=
  match command with
  | Gather subtasks =>
    Forall_all P
      (Gen_ind_with P (fun c => Forall P (subtasks_of c)) HReturn HRaise HYield
                    IOYield_subtasks_ind)
      subtasks
  | StopFromError _ => Forall_nil P
  | Sleep _ => Forall_nil P
  | RequestDependency _ => Forall_nil P
  end.

Definition IO_induction (exp : IO) : P exp :=
  Gen_ind_with P (fun c => Forall P (subtasks_of c)) HReturn HRaise HYield
               IOYield_subtasks_ind exp.
End IOInduction.

Section TaskInduction.
Variable P : IOAsync.Task -> Prop.
Hypothesis HRunning : forall exp, P (IOAsync.Running exp).
Hypothesis HSleeping : forall k, P (IOAsync.Sleeping k).
Hypothesis HGathering : forall subs k, Forall P subs -> P (IOAsync.Gathering subs k).
Hypothesis HDone : forall r, P (IOAsync.Done r).

Fixpoint Task_induction (t : IOAsync.Task) : P t :=
  match t with
  | IOAsync.Running exp => HRunning exp
  | IOAsync.Sleeping k => HSleeping k
  | IOAsync.Gathering subs k => HGathering k (Forall_all P Task_induction subs)
  | IOAsync.Done r => HDone r
  end.
End TaskInduction.

(* ================================================================= *)
(** * Properties of delegation *)

Section Delegation.
Context {Y S : Type}.

(** Delegating and returning what the delegate returned is the
    delegate. *)
Lemma trace_yield_from_Return {A} (g : Gen Y S A) (replies : list S) :
  trace replies (yield_from g (fun result => Return result)) = trace replies g.
Proof.
  revert replies; induction g as [a | y k IH | x]; intros replies; simpl; trivial.
  destruct replies as [| v replies']; simpl; trivial.
  now rewrite IH.
Qed.

Lemma trace_middleman {A} (n : nat) (g : Gen Y S A) (replies : list S) :
  trace replies (middleman n g) = trace replies g.
Proof.
  induction n as [| n IH]; simpl; trivial.
  now rewrite trace_yield_from_Return.
Qed.

Lemma trace_yield_from_assoc {A B C} (a : Gen Y S A) (b : A -> Gen Y S B)
      (c : B -> Gen Y S C) (replies : list S) :
  trace replies (yield_from (yield_from a b) c)
  = trace replies (yield_from a (fun x => yield_from (b x) c)).
Proof.
  revert replies; induction a as [v | y k IH | x]; intros replies; simpl; trivial.
  destruct replies as [| v replies']; simpl; trivial.
  now rewrite IH.
Qed.

(** The requests of a delegation are those of the delegate, then those
    of the code after it, which runs on the remaining replies. *)
Lemma trace_yield_from {A B} (a : Gen Y S A) (rest : A -> Gen Y S B) (replies : list S) :
  trace replies (yield_from a rest)
  = match trace replies a with
    | (t, Some (Ok v)) =>
      let (t2, r) := trace (skipn (List.length t) replies) (rest v) in ((t ++ t2)%list, r)
    | (t, Some (Exc x)) => (t, Some (Exc x))
    | (t, None) => (t, None)
    end.
Proof.
  revert replies; induction a as [v | y k IH | x]; intros replies; simpl.
  - now destruct (trace replies (rest v)).
  - destruct replies as [| v replies']; simpl; trivial.
    rewrite IH.
    destruct (trace replies' (k v)) as [t [[v' | x] |]]; simpl; trivial.
    now destruct (trace (skipn (List.length t) replies') (rest v')).
  - trivial.
Qed.

(** A generator object that is driven from its start shows the trace
    of its body. *)
Lemma observe_Suspended {A} `{NoneLike S} (k : S -> Gen Y S A) (v : S) (replies : list S) :
  observe (v :: replies) (Suspended k) = trace replies (k v).
Proof.
  revert k v; induction replies as [| v' replies' IH]; intros k v.
  - simpl. unfold send, Generator_send. destruct (k v); trivial.
  - change (observe (v :: v' :: replies') (Suspended k))
      with (match send (Suspended k) v with
            | Yielded y o' => let (t, r) := observe (v' :: replies') o' in (y :: t, r)
            | StopIteration a => ([], Some (Ok a))
            | Raised x => ([], Some (Exc x))
            end).
    unfold send at 1, Generator_send. destruct (k v) as [a | y k' | x]; simpl resume; cbv iota; trivial.
    rewrite IH. reflexivity.
Qed.

Lemma observe_Unstarted {A} `{NoneLike S} (g : Gen Y S A) (replies : list S) :
  observe (none :: replies) (Unstarted g) = trace replies g.
Proof.
  transitivity (observe (none :: replies) (Suspended (fun _ : S => g))).
  - destruct replies; simpl; unfold send, Generator_send; now rewrite is_none_none.
  - apply observe_Suspended.
Qed.

End Delegation.

(* ================================================================= *)
(** * The combinator objects behave as their trees *)

Lemma observe_cons {G Y S A} `{Sendable G Y S A} (v : S) (sends : list S) (o : G) :
  observe (v :: sends) o
  = match send o v with
    | Yielded y o' => let (t, r) := observe sends o' in (y :: t, r)
    | StopIteration a => ([], Some (Ok a))
    | Raised x => ([], Some (Exc x))
    end.
Proof. reflexivity. Qed.

Section RecoverWithFacts.
Context {Y S A : Type} `{NoneLike S} `{HasStopFromError Y}.

Lemma RecoverWith_Suspended_reifies (recover : Val -> A) (sends : list S) :
  forall k : S -> Gen Y S A,
    observe sends (mkRecoverWith (Suspended k) recover)
    = observe sends (Suspended (fun value => recover_with (k value) recover)).
Proof.
  induction sends as [| v sends IH]; intros k; trivial.
  rewrite !observe_cons.
  cbv beta iota delta [send RecoverWith_send Generator_send rw_decorated rw_recover resume].
  destruct (k v) as [a | y k' | x]; simpl; trivial.
  destruct (as_StopFromError y); simpl; trivial.
  now rewrite IH.
Qed.

Lemma RecoverWith_reifies (either : Gen Y S A) (recover : Val -> A) (sends : list S) :
  observe sends (mkRecoverWith (Unstarted either) recover)
  = observe sends (Unstarted (recover_with either recover)).
Proof.
  destruct sends as [| v sends]; trivial.
  rewrite !observe_cons.
  cbv beta iota delta [send RecoverWith_send Generator_send rw_decorated rw_recover resume].
  destruct (is_none v); trivial.
  destruct either as [a | y k' | x]; simpl; trivial.
  destruct (as_StopFromError y); simpl; trivial.
  now rewrite RecoverWith_Suspended_reifies.
Qed.

Lemma trace_recover_with (either : Gen Y S A) (recover : Val -> A) (replies : list S) :
  trace replies (recover_with either recover)
  = recovered recover (fst (trace replies either)) (snd (trace replies either)).
Proof.
  revert replies; induction either as [a | y k IH | x]; intros replies; simpl; trivial.
  destruct (as_StopFromError y) eqn:Hy.
  - destruct replies as [| s replies]; simpl.
    + now rewrite Hy.
    + destruct (trace replies (k s)); simpl. now rewrite Hy.
  - destruct replies as [| s replies]; simpl.
    + now rewrite Hy.
    + rewrite IH. destruct (trace replies (k s)) as [t r]; simpl. rewrite Hy.
      now destruct (recovered recover t r).
Qed.

Lemma send_Suspended (k : S -> Gen Y S A) (v : S) :
  send (Suspended k) v = resume (k v).
Proof. reflexivity. Qed.

Lemma send_Unstarted (body : Gen Y S A) (v : S) :
  send (Unstarted body) v = if is_none v then resume body else Raised TypeError.
Proof. reflexivity. Qed.

Lemma send_RecoverWithEither_Some {G1 G2} `{Sendable G1 Y S A} `{Sendable G2 Y S A}
      (d : G1) (recover : Val -> G2) (dr : G2) (v : S) :
  send (mkRecoverWithEither d recover (Some dr)) v
  = match send dr v with
    | Yielded y dr' => Yielded y (mkRecoverWithEither d recover (Some dr'))
    | StopIteration a => StopIteration a
    | Raised x => Raised x
    end.
Proof. reflexivity. Qed.

Lemma send_RecoverWithEither_None {G1 G2} `{Sendable G1 Y S A} `{Sendable G2 Y S A}
      (d : G1) (recover : Val -> G2) (v : S) :
  send (mkRecoverWithEither d recover None) v
  = match send d v with
    | Yielded y d' =>
      match as_StopFromError y with
      | Some error =>
        match next (recover error) with
        | Yielded y' dr' => Yielded y' (mkRecoverWithEither d' recover (Some dr'))
        | StopIteration a => StopIteration a
        | Raised x => Raised x
        end
      | None => Yielded y (mkRecoverWithEither d' recover None)
      end
    | StopIteration a => StopIteration a
    | Raised x => Raised x
    end.
Proof. reflexivity. Qed.

Lemma RecoverWithEither_switched {G1 G2} `{Sendable G1 Y S A} `{Sendable G2 Y S A}
      (d : G1) (recover : Val -> G2) (sends : list S) :
  forall dr : G2,
    observe sends (mkRecoverWithEither d recover (Some dr)) = observe sends dr.
Proof.
  induction sends as [| v sends IH]; intros dr; trivial.
  rewrite !observe_cons, send_RecoverWithEither_Some.
  destruct (send dr v) as [y dr' | a | x]; trivial.
  now rewrite IH.
Qed.

(** What the wrapper does at the send on which the decorated program
    yields (or has yielded) as the tree [body] does. *)
Lemma RecoverWithEither_step (recover_io : Val -> Gen Y S A) (sends : list S)
      (IH : forall k : S -> Gen Y S A,
          observe sends (mkRecoverWithEither (Suspended k)
                                             (fun e => Unstarted (recover_io e)) None)
          = observe sends (Suspended (fun value => recover_with_either (k value) recover_io)))
      (body : Gen Y S A) :
  match
    match resume body with
    | Yielded y d' =>
      match as_StopFromError y with
      | Some error =>
        match next (Unstarted (recover_io error)) with
        | Yielded y' dr' =>
          Yielded y' (mkRecoverWithEither d' (fun e => Unstarted (recover_io e)) (Some dr'))
        | StopIteration a => StopIteration a
        | Raised x => Raised x
        end
      | None => Yielded y (mkRecoverWithEither d' (fun e => Unstarted (recover_io e)) None)
      end
    | StopIteration a => StopIteration a
    | Raised x => Raised x
    end
  with
  | Yielded y o' => let (t, r) := observe sends o' in (y :: t, r)
  | StopIteration a => ([], Some (Ok a))
  | Raised x => ([], Some (Exc x))
  end
  = match resume (recover_with_either body recover_io) with
    | Yielded y o' => let (t, r) := observe sends o' in (y :: t, r)
    | StopIteration a => ([], Some (Ok a))
    | Raised x => ([], Some (Exc x))
    end.
Proof.
  destruct body as [a | y k' | x]; simpl; trivial.
  destruct (as_StopFromError y) as [error |]; simpl.
  - unfold next. rewrite send_Unstarted, is_none_none.
    destruct (recover_io error) as [a | y' k'' | x]; simpl; trivial.
    now rewrite RecoverWithEither_switched.
  - now rewrite IH.
Qed.

Lemma RecoverWithEither_Suspended_reifies (recover_io : Val -> Gen Y S A) (sends : list S) :
  forall k : S -> Gen Y S A,
    observe sends (mkRecoverWithEither (Suspended k) (fun e => Unstarted (recover_io e)) None)
    = observe sends (Suspended (fun value => recover_with_either (k value) recover_io)).
Proof.
  induction sends as [| v sends IH]; intros k; trivial.
  rewrite !observe_cons, send_RecoverWithEither_None, !send_Suspended.
  now apply RecoverWithEither_step.
Qed.

Lemma RecoverWithEither_reifies (io : Gen Y S A) (recover_io : Val -> Gen Y S A)
      (sends : list S) :
  observe sends (mkRecoverWithEither (Unstarted io) (fun e => Unstarted (recover_io e)) None)
  = observe sends (Unstarted (recover_with_either io recover_io)).
Proof.
  destruct sends as [| v sends]; trivial.
  rewrite !observe_cons, send_RecoverWithEither_None, !send_Unstarted.
  destruct (is_none v); trivial.
  apply RecoverWithEither_step. apply RecoverWithEither_Suspended_reifies.
Qed.

End RecoverWithFacts.

Section LoggingFacts.
Import Logging.

Lemma send_MuteLogging {G} `{Sendable G LoggingYield unit Val} (d : G) (v : unit) :
  send (mkMuteLogging d) v
  = match send d v with
    | Yielded y d' =>
      if is_LogMessage y then Yielded Nop (mkMuteLogging d') else Yielded y (mkMuteLogging d')
    | StopIteration a => StopIteration a
    | Raised x => Raised x
    end.
Proof. reflexivity. Qed.

Lemma send_Logging {G} `{Sendable G LoggingYield unit Val} (d : G) (v : unit) :
  send (mkLogging d) v
  = match send d v with
    | Yielded y d' => Yielded y (mkLogging d')
    | StopIteration a => StopIteration a
    | Raised x => Raised x
    end.
Proof. reflexivity. Qed.

(** Through [_MuteLogging], whatever the decorated object is, a driver
    sees [Nop] for each [LogMessage] and every other request as it is,
    and the same end. *)
Lemma MuteLogging_observe {G} `{Sendable G LoggingYield unit Val} (sends : list unit) :
  forall d : G,
    observe sends (mkMuteLogging d)
    = (map mute_request (fst (observe sends d)), snd (observe sends d)).
Proof.
  induction sends as [| v sends IH]; intros d; trivial.
  rewrite !observe_cons, send_MuteLogging.
  destruct (send d v) as [y d' | a | x]; trivial.
  assert (E : (if is_LogMessage y then Yielded Nop (mkMuteLogging d')
               else Yielded y (mkMuteLogging d'))
              = Yielded (Y := LoggingYield) (A := Val) (mute_request y) (mkMuteLogging d'))
    by (unfold mute_request; now destruct (is_LogMessage y)).
  rewrite E, IH. now destruct (observe sends d').
Qed.

(** The [Logging] wrapper shows the decorated object as it is. *)
Lemma Logging_observe {G} `{Sendable G LoggingYield unit Val} (sends : list unit) :
  forall d : G, observe sends (mkLogging d) = observe sends d.
Proof.
  induction sends as [| v sends IH]; intros d; trivial.
  rewrite !observe_cons, send_Logging.
  destruct (send d v) as [y d' | a | x]; trivial.
  now rewrite IH.
Qed.

Lemma trace_muted (self : LoggingGen) (replies : list unit) :
  trace replies (muted self)
  = (map mute_request (fst (trace replies self)), snd (trace replies self)).
Proof.
  revert replies; induction self as [a | y k IH | x]; intros replies; simpl; trivial.
  destruct y as [severity message |]; destruct replies as [| v replies]; simpl; trivial;
    rewrite IH; now destruct (trace replies (k v)).
Qed.

(** [self.muted()], the object, answers as the tree [muted self]. *)
Lemma muted_reifies (self : LoggingGen) (sends : list unit) :
  observe sends (muted_obj (mkLogging (Unstarted self)))
  = observe sends (Unstarted (muted self)).
Proof.
  unfold muted_obj.
  rewrite Logging_observe, MuteLogging_observe, Logging_observe.
  destruct sends as [| [] sends]; trivial.
  change (tt :: sends) with ((none : unit) :: sends).
  rewrite !observe_Unstarted. now rewrite trace_muted.
Qed.

Lemma run_collecting_from_muted (self : LoggingGen) :
  forall acc acc' : list LoggingYield,
    run_collecting_from acc (muted self)
    = match run_collecting_from acc' self with
      | Ok (value, _) => Ok (value, acc)
      | Exc x => Exc x
      end.
Proof.
  induction self as [a | y k IH | x]; intros acc acc'; simpl; trivial.
  destruct y as [severity message |]; simpl; apply IH.
Qed.

Lemma run_muted_muted (self : LoggingGen) : run_muted (muted self) = run_muted self.
Proof.
  induction self as [a | y k IH | x]; simpl; trivial.
  destruct y as [severity message |]; simpl; apply IH.
Qed.

Lemma run_muted_run_collecting (self : LoggingGen) :
  forall acc,
    run_muted self
    = match run_collecting_from acc self with
      | Ok (value, _) => Ok value
      | Exc x => Exc x
      end.
Proof.
  induction self as [a | y k IH | x]; intros acc; simpl; trivial.
  destruct y as [severity message |]; simpl; apply IH.
Qed.

End LoggingFacts.

(** Objects created from bodies with the same traces answer every
    sequence of sends alike. *)
Lemma observe_Unstarted_ext {Y S A} `{NoneLike S} (g1 g2 : Gen Y S A) :
  (forall replies, trace replies g1 = trace replies g2) ->
  forall sends, observe sends (Unstarted g1) = observe sends (Unstarted g2).
Proof.
  intros Hg [| v sends]; trivial.
  rewrite !observe_cons, !send_Unstarted.
  destruct (is_none v); trivial.
  pose proof (Hg sends) as Hs.
  rewrite <- !(observe_Suspended (fun _ : S => _) v) in Hs.
  now rewrite !observe_cons, !send_Suspended in Hs.
Qed.

(* ================================================================= *)
(** * Delegation, recovery, muting *)

(** The runs of the examples of [30_either_basic.py]. *)
Lemma run_either_examples :
  Either.run_either Either.prog1 = Completed (VInt 2)
  /\ Either.run_either Either.prog2 = Halted (VStr "prog2 mb intentional error")
  /\ Either.run_either Either.prog3 = Halted (VStr "can't divide 6 by 0")
  /\ Either.run_either Either.prog4 = Completed (VStr "oops").
Proof. repeat split; reflexivity. Qed.

(** C8.  Delegation is associative and flat.  For all programs [a], [b]
    and [c] (each later one running on what the earlier one returned), the
    program that delegates to (the program that delegates to [a] and goes
    on as [b]) and goes on as [c] shows a driver, whatever it replies, the
    same requests and the same end as the flattened program [a; b; c];
    the requests of a delegation are those of the inner program as they
    are, followed by those of the code after it; a chain of [n] functions
    that only delegate adds no request; and the generator objects made
    from the nested and from the flattened program answer every sequence
    of sends alike.  [prog1] of file 30, which delegates to [pure],
    [pure] and [divide], completes with 2. *)
Theorem delegation_associative_and_flat :
  (forall (Y S A B C : Type) (a : Gen Y S A) (b : A -> Gen Y S B) (c : B -> Gen Y S C)
          (replies : list S),
      trace replies (yield_from (yield_from a b) c)
      = trace replies (yield_from a (fun x => yield_from (b x) c)))
  /\ (forall (Y S A B : Type) (a : Gen Y S A) (rest : A -> Gen Y S B) (replies : list S),
         trace replies (yield_from a rest)
         = match trace replies a with
           | (t, Some (Ok v)) =>
             let (t2, r) := trace (skipn (List.length t) replies) (rest v) in
             ((t ++ t2)%list, r)
           | (t, Some (Exc x)) => (t, Some (Exc x))
           | (t, None) => (t, None)
           end)
  /\ (forall (Y S A : Type) (n : nat) (g : Gen Y S A) (replies : list S),
         trace replies (middleman n g) = trace replies g)
  /\ (forall (a : Either.Either) (b c : Val -> Either.Either) (sends : list Val),
         observe sends (Unstarted (yield_from (yield_from a b) c))
         = observe sends (Unstarted (yield_from a (fun x => yield_from (b x) c))))
  /\ Either.run_either Either.prog1 = Completed (VInt 2).
Proof.
  split; [| split; [| split; [| split]]].
  - intros; apply trace_yield_from_assoc.
  - intros; apply trace_yield_from.
  - intros; apply trace_middleman.
  - intros a b c. apply observe_Unstarted_ext. intros; apply trace_yield_from_assoc.
  - reflexivity.
Qed.

(** C4.  [recover_with(halt_with_error(e), f)] is [pure(f(e))]: the
    behaviour tree is that of [pure(f(e))], the [_RecoverWith] object
    answers every sequence of sends as the generator [pure(f(e))] does
    (in particular it yields nothing), and [run_either] completes with
    [f(e)].  In general, for every request type and every program, what
    a driver sees of [recover_with(program, f)] is what it sees of
    [program] up to the first [StopFromError], excluded, each request
    before it unchanged; at a [StopFromError(e)] the program ends as
    completed with [f(e)]; and the [_RecoverWith] object around a
    generator answers as that tree. *)
Theorem recover_with_halt_is_pure :
  (forall (e : Val) (f : Val -> Val),
      recover_with (Either.halt_with_error e) f = Either.pure (f e)
      /\ (forall sends : list Val,
             observe sends (mkRecoverWith (Unstarted (Either.halt_with_error e)) f)
             = observe sends (Unstarted (Either.pure (f e))))
      /\ trace [] (recover_with (Either.halt_with_error e) f) = ([], Some (Ok (f e)))
      /\ Either.run_either (recover_with (Either.halt_with_error e) f) = Completed (f e)
      /\ Either.run_either (Either.pure (f e)) = Completed (f e))
  /\ (forall (Y S A : Type) (HS : HasStopFromError Y) (program : Gen Y S A) (f : Val -> A)
             (replies : list S),
         trace replies (recover_with program f)
         = recovered f (fst (trace replies program)) (snd (trace replies program)))
  /\ (forall (Y S A : Type) (HN : NoneLike S) (HS : HasStopFromError Y)
             (program : Gen Y S A) (f : Val -> A) (sends : list S),
         observe sends (mkRecoverWith (Unstarted program) f)
         = observe sends (Unstarted (recover_with program f))).
Proof.
  split; [| split].
  - intros e f. split; [reflexivity |]. split; [| repeat split].
    intros sends. now rewrite RecoverWith_reifies.
  - intros; apply trace_recover_with.
  - intros; apply RecoverWith_reifies.
Qed.

(** C5.  [recover_with_either(halt_with_error(e), g)] is [g(e)] alone:
    the [_RecoverWithEither] object answers every sequence of sends as
    the generator [g(e)] does, so the requests and the end are the same
    under every driver, and [run_either] gives the same result; when
    [g(e)] halts with [e2], the run is halted with [e2]. *)
Theorem recover_with_either_halt_is_recovery (e : Val) (g : Val -> Either.Either) :
  (forall sends : list Val,
      observe sends (mkRecoverWithEither (Unstarted (Either.halt_with_error e))
                                         (fun e' => Unstarted (g e')) None)
      = observe sends (Unstarted (g e)))
  /\ (forall replies : list Val,
         trace replies (recover_with_either (Either.halt_with_error e) g)
         = trace replies (g e))
  /\ Either.run_either (recover_with_either (Either.halt_with_error e) g)
     = Either.run_either (g e)
  /\ (forall e2 : Val,
         Either.run_either (g e) = Halted e2 ->
         Either.run_either (recover_with_either (Either.halt_with_error e) g) = Halted e2).
Proof.
  split; [| split; [| split]].
  - intros sends. now rewrite RecoverWithEither_reifies.
  - reflexivity.
  - reflexivity.
  - intros e2 He2. exact He2.
Qed.

(** The witness: [r6] of [main] in file 31 at its recovery step.  The
    division by zero is not an [InternalError], so the recovery program
    halts with it again, and the run is halted. *)
Lemma recover_with_either_halt_is_recovery_witness :
  Either.run_either
    (Either.recover_from_internal_error_only (Either.DivideByZero "can't divide 6 by 0"))
  = Halted (Either.DivideByZero "can't divide 6 by 0")
  /\ Either.run_either
       (recover_with_either
          (Either.halt_with_error (Either.DivideByZero "can't divide 6 by 0"))
          Either.recover_from_internal_error_only)
     = Halted (Either.DivideByZero "can't divide 6 by 0").
Proof.
  split; [reflexivity |].
  apply (proj2 (proj2 (proj2
           (recover_with_either_halt_is_recovery
              (Either.DivideByZero "can't divide 6 by 0")
              Either.recover_from_internal_error_only)))).
  reflexivity.
Defined.

(** The runs [r5] and [r6] of [main] in file 31. *)
Lemma run_recover_with_either_examples :
  Either.run_either
    (recover_with_either Either.prog2_31 Either.recover_from_internal_error_only)
  = Completed (VInt 0)
  /\ Either.run_either
       (recover_with_either Either.prog3_31 Either.recover_from_internal_error_only)
     = Halted (Either.DivideByZero "can't divide 6 by 0").
Proof. split; reflexivity. Qed.

(** C9.  For every logging program [p]: through [p.muted()] a driver
    sees [Nop] for each [LogMessage] of [p] and every other request as
    it is, with the same end (for the object, under every sequence of
    sends, and for its tree); driving the muted program gives the value
    that driving [p] gives; and [run_collecting] of the muted program
    returns that value with an empty list of messages. *)
Theorem muted_drops_logs_and_keeps_result (p : Logging.LoggingGen) :
  (forall sends : list unit,
      observe sends (Logging.muted_obj (Logging.mkLogging (Unstarted p)))
      = (map mute_request (fst (observe sends (Unstarted p))),
         snd (observe sends (Unstarted p))))
  /\ (forall sends : list unit,
         observe sends (Logging.muted_obj (Logging.mkLogging (Unstarted p)))
         = observe sends (Unstarted (Logging.muted p)))
  /\ (forall replies : list unit,
         trace replies (Logging.muted p)
         = (map mute_request (fst (trace replies p)), snd (trace replies p)))
  /\ Logging.run_muted (Logging.muted p) = Logging.run_muted p
  /\ Logging.run_collecting (Logging.muted p)
     = match Logging.run_collecting p with
       | Ok (value, _) => Ok (value, [])
       | Exc x => Exc x
       end.
Proof.
  split; [| split; [| split; [| split]]].
  - intros sends. unfold Logging.muted_obj.
    now rewrite Logging_observe, MuteLogging_observe, Logging_observe.
  - apply muted_reifies.
  - apply trace_muted.
  - apply run_muted_muted.
  - apply run_collecting_from_muted.
Qed.

(** The three interpreters on [prog1] of file 22. *)
Lemma run_logging_examples :
  Logging.run_collecting Logging.prog1
  = Ok (VInt (-1),
        [Logging.LogMessage Logging.info "Started prog1";
         Logging.LogMessage Logging.info "trying to divide 20 and 0";
         Logging.LogMessage Logging.warning "Can't divide 20 by 0, defaulting to -1";
         Logging.LogMessage Logging.info "Finished prog1"])
  /\ Logging.run_muted Logging.prog1 = Ok (VInt (-1))
  /\ Logging.run_collecting (Logging.muted Logging.prog1) = Ok (VInt (-1), []).
Proof. repeat split; reflexivity. Qed.

(* ================================================================= *)
(** * The state effect *)

(** [GetState] is answered with the content of the cell, which it leaves
    as it is. *)
Lemma run_state_from_get_state {S A} (cell : S) (tag : PyClass) (rest : S -> State S A) :
  State.run_state_from cell (yield_from (get_state tag) rest)
  = State.run_state_from cell (rest cell).
Proof. reflexivity. Qed.

(** [SetState(value)] replaces the content of the cell. *)
Lemma run_state_from_set_state {S A} (cell value : S) (rest : unit -> State S A) :
  State.run_state_from cell (yield_from (set_state value) rest)
  = State.run_state_from value (rest tt).
Proof. reflexivity. Qed.

(** C6.  Under [run_state] of file 70, for every state value [s], tag
    and initial state: [set_state(s)] followed by [get_state(tag)]
    returns [s], the value just set, and leaves it in the cell;
    [get_state(tag)] returns the current content of the cell; and when
    [s] is an instance of [tag] (the tag of its own facet), so is the
    value returned. *)
Theorem set_state_then_get_state (S : Type) (s initial_state : S) (tag : PyClass) :
  State.run_state (yield_from (set_state s) (fun _ => get_state tag)) initial_state
  = Ok (s, s)
  /\ State.run_state (get_state tag) initial_state = Ok (initial_state, initial_state)
  /\ (forall (c : Container) (initial : Container),
         isinstance c tag = true ->
         exists r : Container,
           State.run_state (yield_from (set_state c) (fun _ => get_state tag)) initial
           = Ok (r, c)
           /\ r = c /\ isinstance r tag = true).
Proof.
  split; [reflexivity |]. split; [reflexivity |].
  intros c initial Hc. exists c. now repeat split.
Qed.

Lemma set_state_then_get_state_witness :
  isinstance (ContainerA 5) cls_ContainerA = true
  /\ exists r : Container,
      State.run_state (yield_from (set_state (ContainerA 5))
                                  (fun _ => get_state cls_ContainerA))
                      (ContainerA 0)
      = Ok (r, ContainerA 5)
      /\ r = ContainerA 5 /\ isinstance r cls_ContainerA = true.
Proof.
  split; [reflexivity |].
  apply (proj2 (proj2 (set_state_then_get_state (ContainerA 5) (ContainerA 0) cls_ContainerA))).
  reflexivity.
Defined.

(** [prog3] of file 70 reads the facet A after the facet B was set: the
    cell was replaced, and what it gets is the [ContainerB]. *)
Lemma State_prog3_returns_ContainerB :
  State.run_state State.prog3 (ContainerAB "no" 0)
  = Ok (ContainerB "hello", ContainerB "hello").
Proof. reflexivity. Qed.

(** A write of the facet B leaves the field of the facet A of any cell
    as it is, and the other way round. *)
Lemma update_ContainerB_keeps_value_int (cell : Container) (b : string) :
  get_value_int (StateFixed.update cell (ContainerB b)) = get_value_int cell.
Proof. now destruct cell. Qed.

Lemma update_ContainerA_keeps_value_str (cell : Container) (a : Z) :
  get_value_str (StateFixed.update cell (ContainerA a)) = get_value_str cell.
Proof. now destruct cell. Qed.

(** C7.  Under [run_state] of file 71 with a [ContainerAB] cell, for all
    facet values [a] and [b] and every initial content: [set_state] of
    [ContainerA(a)], then [set_state] of [ContainerB(b)], then
    [get_state(ContainerA)] returns the cell with [value_int = a], the
    value just set for the facet A, and [value_str = b]; the write of
    the facet B leaves [value_int] of any cell unchanged, and the write
    of the facet A leaves [value_str] unchanged. *)
Theorem facet_write_keeps_other_facet (a : Z) (b : string) (s0 : string) (i0 : Z) :
  (exists ca : Container,
      StateFixed.run_state
        (yield_from (set_state (ContainerA a)) (fun _ =>
         yield_from (set_state (ContainerB b)) (fun _ =>
         yield_from (get_state cls_ContainerA) (fun ca =>
         Return ca))))
        (ContainerAB s0 i0)
      = Ok (ca, ContainerAB b a)
      /\ get_value_int ca = Some a
      /\ get_value_str ca = Some b
      /\ isinstance ca cls_ContainerA = true)
  /\ StateFixed.update (StateFixed.update (ContainerAB s0 i0) (ContainerA a)) (ContainerB b)
     = ContainerAB b a
  /\ (forall cell : Container,
         get_value_int (StateFixed.update cell (ContainerB b)) = get_value_int cell)
  /\ (forall cell : Container,
         get_value_str (StateFixed.update cell (ContainerA a)) = get_value_str cell).
Proof.
  split; [| split; [reflexivity | split]].
  - exists (ContainerAB b a). now repeat split.
  - intros; apply update_ContainerB_keeps_value_int.
  - intros; apply update_ContainerA_keeps_value_str.
Qed.

(** [prog3] of file 71: the facet A is still there after the facet B was
    set. *)
Lemma StateFixed_prog3_returns_both :
  StateFixed.run_state StateFixed.prog3 (ContainerAB "no" 0)
  = Ok (ContainerAB "hello" 1, ContainerAB "hello" 1).
Proof. reflexivity. Qed.

(* ================================================================= *)
(** * Gather under the three interpreters *)

Lemma same_outcome_refl {A} (r : Res A) : same_outcome r r.
Proof. now destruct r. Qed.

Lemma same_outcome_trans {A} (r1 r2 r3 : Res A) :
  same_outcome r1 r2 -> same_outcome r2 r3 -> same_outcome r1 r3.
Proof. destruct r1, r2, r3; simpl; congruence || tauto. Qed.

Lemma same_outcome_Ok {A} (v : A) (r : Res A) : same_outcome (Ok v) r -> r = Ok v.
Proof. destruct r; simpl; [congruence | tauto]. Qed.

Lemma comprehension_Forall2 {A B} (f : A -> Res B) (l : list A) (rs : list B) :
  comprehension f l = Ok rs <-> Forall2 (fun a b => f a = Ok b) l rs.
Proof.
  revert rs; induction l as [| a l IH]; intros rs; simpl.
  - split; intros H.
    + injection H as <-. constructor.
    + now inversion H.
  - split; intros H.
    + destruct (f a) as [b |] eqn:Hb; [| discriminate].
      destruct (comprehension f l) as [bs |] eqn:Hbs; [| discriminate].
      injection H as <-. constructor; trivial. now apply IH.
    + inversion H as [| a' b l' bs Hb Hbs]; subst.
      rewrite Hb. apply IH in Hbs. now rewrite Hbs.
Qed.

Lemma first_error_app (pre post : list Val) (e : Val) :
  Forall (fun v => is_StopFromError v = false) pre ->
  first_error (pre ++ VStopFromError e :: post)%list = Some e.
Proof.
  induction 1 as [| v pre Hv _ IH]; simpl; trivial.
  destruct v; simpl in *; trivial; discriminate.
Qed.

Lemma first_error_None (rs : list Val) :
  Forall (fun v => is_StopFromError v = false) rs -> first_error rs = None.
Proof.
  induction 1 as [| v rs Hv _ IH]; simpl; trivial.
  destruct v; simpl in *; trivial; discriminate.
Qed.

(** The reply of the three interpreters to [Gather], in terms of the
    results of all the sub-runs. *)
Lemma IOBlocking_run_single_command_Gather (subs : list IO) :
  IOBlocking.run_single_command (Gather subs)
  = match comprehension IOBlocking.run_io subs with
    | Exc x => Exc x
    | Ok sub_results =>
      match first_error sub_results with
      | Some error => Ok (VStopFromError error)
      | None => Ok (VList sub_results)
      end
    end.
Proof. reflexivity. Qed.

Lemma IODeps_run_single_command_Gather (dep_resolver : string -> Res Val) (subs : list IO) :
  IODeps.run_single_command dep_resolver (Gather subs)
  = match comprehension (IODeps.run_io dep_resolver) subs with
    | Exc x => Exc x
    | Ok sub_results => Ok (IOAsync.gather_reply sub_results)
    end.
Proof.
  transitivity
    (match comprehension (IODeps.run_io dep_resolver) subs with
     | Exc x => Exc x
     | Ok sub_results =>
       match first_error sub_results with
       | Some error => Ok (VExitInPlace error)
       | None => Ok (VList sub_results)
       end
     end); [reflexivity |].
  unfold IOAsync.gather_reply.
  destruct (comprehension (IODeps.run_io dep_resolver) subs) as [rs |]; trivial.
  now destruct (first_error rs).
Qed.

Lemma IOAsync_run_single_command_Gather (subs : list IO) :
  IOAsync.run_single_command (Gather subs)
  = match comprehension IOAsync.run_io subs with
    | Exc x => Exc x
    | Ok sub_results => Ok (IOAsync.gather_reply sub_results)
    end.
Proof.
  transitivity
    (match comprehension IOAsync.run_io subs with
     | Exc x => Exc x
     | Ok sub_results =>
       match first_error sub_results with
       | Some error => Ok (VExitInPlace error)
       | None => Ok (VList sub_results)
       end
     end); [reflexivity |].
  unfold IOAsync.gather_reply.
  destruct (comprehension IOAsync.run_io subs) as [rs |]; trivial.
  now destruct (first_error rs).
Qed.

Lemma gather_reply_not_StopFromError (rs : list Val) :
  is_StopFromError (IOAsync.gather_reply rs) = false.
Proof. unfold IOAsync.gather_reply. now destruct (first_error rs). Qed.

Lemma run_loop_Yield {Y} (run_single_command : Y -> Res Val) (command : Y) (k : Val -> Gen Y Val Val) :
  run_loop run_single_command (Yield command k)
  = match run_single_command command with
    | Exc x => Exc x
    | Ok step_result =>
      if is_StopFromError step_result then Ok step_result
      else run_loop run_single_command (k step_result)
    end.
Proof. reflexivity. Qed.

(** A parent that yields [Gather] goes on with the reply, under files 41
    and 50. *)
Lemma IOAsync_run_io_Gather (subs : list IO) (k : Val -> IO) :
  IOAsync.run_io (Yield (Gather subs) k)
  = match comprehension IOAsync.run_io subs with
    | Exc x => Exc x
    | Ok sub_results => IOAsync.run_io (k (IOAsync.gather_reply sub_results))
    end.
Proof.
  unfold IOAsync.run_io at 1. rewrite run_loop_Yield, IOAsync_run_single_command_Gather.
  destruct (comprehension IOAsync.run_io subs) as [rs |]; trivial.
  now rewrite gather_reply_not_StopFromError.
Qed.

Lemma IODeps_run_io_Gather (dep_resolver : string -> Res Val) (subs : list IO) (k : Val -> IO) :
  IODeps.run_io dep_resolver (Yield (Gather subs) k)
  = match comprehension (IODeps.run_io dep_resolver) subs with
    | Exc x => Exc x
    | Ok sub_results => IODeps.run_io dep_resolver (k (IOAsync.gather_reply sub_results))
    end.
Proof.
  unfold IODeps.run_io at 1. rewrite run_loop_Yield, IODeps_run_single_command_Gather.
  destruct (comprehension (IODeps.run_io dep_resolver) subs) as [rs |]; trivial.
  now rewrite gather_reply_not_StopFromError.
Qed.

(** Under file z0 the parent is not resumed when a sub-program halted:
    the run returns the error. *)
Lemma IOBlocking_run_io_Gather (subs : list IO) (k : Val -> IO) :
  IOBlocking.run_io (Yield (Gather subs) k)
  = match comprehension IOBlocking.run_io subs with
    | Exc x => Exc x
    | Ok sub_results =>
      match first_error sub_results with
      | Some error => Halted error
      | None => IOBlocking.run_io (k (VList sub_results))
      end
    end.
Proof.
  unfold IOBlocking.run_io at 1. rewrite run_loop_Yield, IOBlocking_run_single_command_Gather.
  destruct (comprehension IOBlocking.run_io subs) as [rs |]; trivial.
  now destruct (first_error rs).
Qed.

(* ================================================================= *)
(** * The event loop of file 41: every schedule gives the same result *)

Section EventLoop.
Import IOAsync.

Lemma outcome_Gathering (subs : list Task) (k : Val -> IO) :
  outcome (Gathering subs k)
  = match comprehension outcome subs with
    | Exc x => Exc x
    | Ok sub_results => run_io (k (gather_reply sub_results))
    end.
Proof. reflexivity. Qed.

Lemma comprehension_outcome_Running (subs : list IO) :
  comprehension outcome (map Running subs) = comprehension run_io subs.
Proof.
  induction subs as [| st subs IH]; simpl; trivial.
  now rewrite IH.
Qed.

Lemma raised_comprehension (subs : list Task) (x : Exn) :
  raised subs = Some x -> exists x', comprehension outcome subs = Exc x'.
Proof.
  induction subs as [| s subs IH]; simpl; [discriminate |].
  intros H.
  destruct (outcome s) as [v |] eqn:Hs; [| eauto].
  destruct s as [exp | k | subs' k | [v' | x0]];
    try (destruct (IH H) as [x' ->]; eauto).
  simpl in Hs. discriminate.
Qed.

Lemma results_comprehension (subs : list Task) (rs : list Val) :
  results subs = Some rs -> comprehension outcome subs = Ok rs.
Proof.
  revert rs; induction subs as [| s subs IH]; simpl; intros rs H.
  - now injection H as <-.
  - destruct s as [exp | k | subs' k | [v | x]]; try discriminate.
    destruct (results subs) as [vs |]; [| discriminate].
    injection H as <-. simpl. now rewrite (IH vs eq_refl).
Qed.

Lemma comprehension_same_outcome (l l' : list Task) :
  Forall2 (fun a b => same_outcome (outcome a) (outcome b)) l l' ->
  match comprehension outcome l, comprehension outcome l' with
  | Ok rs, Ok rs' => rs = rs'
  | Exc _, Exc _ => True
  | _, _ => False
  end.
Proof.
  induction 1 as [| a b l l' Hab _ IH]; simpl; trivial.
  destruct (outcome a), (outcome b); simpl in Hab; try tauto. subst.
  destruct (comprehension outcome l), (comprehension outcome l'); try tauto.
  now subst.
Qed.

Lemma at_index_Forall2 {A} (R : A -> A -> Prop) (f : A -> A) (l : list A) :
  (forall a, R a a) ->
  Forall (fun a => R a (f a)) l ->
  forall i, Forall2 R l (at_index f i l).
Proof.
  intros HR; induction 1 as [| a l Ha Hl IH]; intros i; simpl; [constructor |].
  destruct i as [| i].
  - constructor; trivial. clear - HR. induction l; constructor; trivial.
  - constructor; trivial.
Qed.

(** A step of the event loop, whichever task it runs, leaves the result
    that the task will give as it was. *)
Lemma step_same_outcome (t : Task) :
  forall path, same_outcome (outcome t) (outcome (step path t)).
Proof.
  induction t as [exp | k | subs k IH | r] using Task_induction; intros path.
  - destruct exp as [v | command k | x]; try apply same_outcome_refl.
    destruct command as [e | d | sub_tasks | dt]; try apply same_outcome_refl.
    simpl step. rewrite outcome_Gathering, comprehension_outcome_Running.
    simpl outcome. rewrite IOAsync_run_io_Gather. apply same_outcome_refl.
  - apply same_outcome_refl.
  - simpl step.
    destruct (raised subs) as [x |] eqn:Hraised.
    + rewrite outcome_Gathering.
      destruct (raised_comprehension _ Hraised) as [x' ->]. exact I.
    + destruct (results subs) as [rs |] eqn:Hresults.
      * rewrite outcome_Gathering, (results_comprehension _ Hresults).
        apply same_outcome_refl.
      * destruct path as [| i path']; [apply same_outcome_refl |].
        rewrite !outcome_Gathering.
        assert (H2 : Forall2 (fun a b => same_outcome (outcome a) (outcome b))
                             subs (at_index (step path') i subs)).
        { apply at_index_Forall2.
          - intros a; apply same_outcome_refl.
          - revert IH. apply Forall_impl. intros a Ha. apply Ha. }
        apply comprehension_same_outcome in H2.
        destruct (comprehension outcome subs),
                 (comprehension outcome (at_index (step path') i subs)); try tauto.
        subst. apply same_outcome_refl.
  - apply same_outcome_refl.
Qed.

Lemma run_schedule_same_outcome (schedule : list (list nat)) :
  forall t, same_outcome (outcome t) (outcome (run_schedule schedule t)).
Proof.
  induction schedule as [| path schedule IH]; intros t; simpl.
  - apply same_outcome_refl.
  - eapply same_outcome_trans; [apply (step_same_outcome t path) | apply IH].
Qed.

(** Whatever the schedule, a run that ends ends with the result of
    [run_io] read with [await] as a call (an exception apart, which may
    be that of another sub-task). *)
Lemma run_async_sound (schedule : list (list nat)) (exp : IO) (r : Res Val) :
  run_async schedule exp = Done r -> same_outcome (run_io exp) r.
Proof.
  intros H. pose proof (run_schedule_same_outcome schedule (Running exp)) as Hs.
  unfold run_async in H. now rewrite H in Hs.
Qed.

Lemma run_async_value (schedule : list (list nat)) (exp : IO) (r : Res Val) (v : Val) :
  run_io exp = Ok v -> run_async schedule exp = Done r -> r = Ok v.
Proof.
  intros Hv H. apply run_async_sound in H. rewrite Hv in H. now apply same_outcome_Ok.
Qed.

End EventLoop.

(** ** The event loop ends *)

Section EventLoopEnds.
Import IOAsync.

Lemma run_leftmost_Done (n : nat) (r : Res Val) : run_leftmost n (Done r) = Done r.
Proof. induction n; simpl; trivial. Qed.

Lemma run_leftmost_S (n : nat) (t : Task) :
  run_leftmost (Datatypes.S n) t = run_leftmost n (step (leftmost t) t).
Proof. reflexivity. Qed.

Lemma run_leftmost_add (n m : nat) :
  forall t, run_leftmost (n + m) t = run_leftmost m (run_leftmost n t).
Proof. induction n as [| n IH]; intros t; simpl; trivial. Qed.

Lemma run_leftmost_schedule (n : nat) :
  forall t, exists schedule, run_schedule schedule t = run_leftmost n t.
Proof.
  induction n as [| n IH]; intros t.
  - now exists [].
  - destruct (IH (step (leftmost t) t)) as [schedule Hs].
    now exists (leftmost t :: schedule).
Qed.

Lemma raised_returned (vs : list Val) (l : list Task) :
  raised (returned vs ++ l)%list = raised l.
Proof. induction vs; simpl; trivial. Qed.

Lemma results_returned (vs : list Val) (l : list Task) :
  results (returned vs ++ l)%list
  = match results l with Some rs => Some (vs ++ rs)%list | None => None end.
Proof.
  induction vs as [| v vs IH]; simpl.
  - now destruct (results l).
  - rewrite IH. now destruct (results l).
Qed.

Lemma leftmost_in_returned (vs : list Val) (t : Task) (post : list Task) :
  (forall r, t <> Done r) ->
  forall i, leftmost_in leftmost i (returned vs ++ t :: post)%list
            = (i + List.length vs)%nat :: leftmost t.
Proof.
  intros Ht. induction vs as [| v vs IH]; intros i; simpl.
  - rewrite Nat.add_0_r. destruct t; trivial. now elim (Ht r).
  - rewrite IH. f_equal. lia.
Qed.

Lemma at_index_returned (f : Task -> Task) (vs : list Val) (t : Task) (post : list Task) :
  at_index f (List.length vs) (returned vs ++ t :: post)%list
  = (returned vs ++ f t :: post)%list.
Proof. induction vs as [| v vs IH]; simpl; trivial. now rewrite IH. Qed.

Lemma raised_Running (rest : list IO) : raised (map Running rest) = None.
Proof. induction rest; simpl; trivial. Qed.

(** With the tasks before it returned and those after it not started,
    the leftmost scheduler runs the sub-task [t]. *)
Lemma step_leftmost_Gathering (vs : list Val) (t : Task) (rest : list IO) (k : Val -> IO) :
  (forall r, t <> Done r) ->
  step (leftmost (Gathering (returned vs ++ t :: map Running rest) k))
       (Gathering (returned vs ++ t :: map Running rest) k)
  = Gathering (returned vs ++ step (leftmost t) t :: map Running rest) k.
Proof.
  intros Ht.
  change (leftmost (Gathering (returned vs ++ t :: map Running rest) k))
    with (leftmost_in leftmost O (returned vs ++ t :: map Running rest)%list).
  rewrite leftmost_in_returned by trivial. simpl Nat.add.
  simpl step. rewrite raised_returned, results_returned.
  destruct t as [exp | k' | subs' k' | r]; simpl raised; simpl results;
    try (rewrite raised_Running; now rewrite at_index_returned).
  now elim (Ht r).
Qed.

Lemma run_leftmost_in_Gathering (vs : list Val) (rest : list IO) (k : Val -> IO) (n : nat) :
  forall (t : Task) (r : Res Val),
    run_leftmost n t = Done r ->
    exists m,
      run_leftmost m (Gathering (returned vs ++ t :: map Running rest) k)
      = Gathering (returned vs ++ Done r :: map Running rest) k.
Proof.
  induction n as [| n IH]; intros t r Hn.
  - simpl in Hn. subst t. now exists O.
  - destruct t as [exp | k' | subs' k' | r'].
    4: { rewrite run_leftmost_Done in Hn. injection Hn as ->. now exists O. }
    all: rewrite run_leftmost_S in Hn; apply IH in Hn; destruct Hn as [m Hm];
      exists (Datatypes.S m); rewrite run_leftmost_S;
      rewrite step_leftmost_Gathering by discriminate; exact Hm.
Qed.

Lemma returned_snoc (vs : list Val) (v : Val) (l : list Task) :
  (returned vs ++ Done (Ok v) :: l)%list = (returned (vs ++ [v]) ++ l)%list.
Proof. unfold returned. now rewrite map_app, <- app_assoc. Qed.

Lemma Gathering_ends (k : Val -> IO) (rest : list IO) :
  Forall (fun st => exists n r, run_leftmost n (Running st) = Done r) rest ->
  (forall v, exists n r, run_leftmost n (Running (k v)) = Done r) ->
  forall vs, exists n r,
      run_leftmost n (Gathering (returned vs ++ map Running rest) k) = Done r.
Proof.
  intros Hrest Hk. induction Hrest as [| st rest [n [r Hst]] _ IH]; intros vs.
  - destruct (Hk (gather_reply vs)) as [n [r Hn]].
    exists (Datatypes.S n), r. rewrite run_leftmost_S. simpl map. rewrite app_nil_r.
    simpl step.
    pose proof (raised_returned vs []) as Hr. rewrite app_nil_r in Hr. rewrite Hr.
    pose proof (results_returned vs []) as Hs. rewrite app_nil_r in Hs. rewrite Hs.
    simpl. rewrite app_nil_r. exact Hn.
  - destruct (run_leftmost_in_Gathering vs rest k n _ Hst) as [m Hm].
    destruct r as [v | x].
    + rewrite returned_snoc in Hm.
      destruct (IH (vs ++ [v])%list) as [n' [r' Hn']].
      exists (m + n')%nat, r'. rewrite run_leftmost_add. simpl map. now rewrite Hm.
    + exists (m + 1)%nat, (Exc x). rewrite run_leftmost_add. simpl map. rewrite Hm.
      rewrite run_leftmost_S. simpl step. rewrite raised_returned. reflexivity.
Qed.

(** Run by the leftmost scheduler, every program ends. *)
Lemma run_leftmost_ends (exp : IO) :
  exists n r, run_leftmost n (Running exp) = Done r.
Proof.
  induction exp as [v | x | command k IHsubs IHk] using IO_induction.
  - now exists 1%nat, (Ok v).
  - now exists 1%nat, (Exc x).
  - destruct command as [e | d | sub_tasks | dt].
    + now exists 1%nat, (Ok (VStopFromError e)).
    + destruct (IHk VNone) as [n [r Hn]]. now exists (Datatypes.S (Datatypes.S n)), r.
    + destruct (Gathering_ends k IHsubs IHk []) as [n [r Hn]].
      now exists (Datatypes.S n), r.
    + destruct (IHk VNone) as [n [r Hn]]. now exists (Datatypes.S n), r.
Qed.

(** Every program has a schedule under which it ends, and it ends there
    as under any other. *)
Lemma run_async_ends (exp : IO) :
  exists schedule r, run_async schedule exp = Done r /\ same_outcome (run_io exp) r.
Proof.
  destruct (run_leftmost_ends exp) as [n [r Hn]].
  destruct (run_leftmost_schedule n (Running exp)) as [schedule Hs].
  exists schedule, r. unfold run_async. rewrite Hs, Hn. split; trivial.
  apply (run_async_sound schedule). unfold run_async. now rewrite Hs.
Qed.

Lemma run_async_ends_with (exp : IO) (v : Val) :
  run_io exp = Ok v -> exists schedule, run_async schedule exp = Done (Ok v).
Proof.
  intros Hv. destruct (run_async_ends exp) as [schedule [r [Hr Hs]]].
  rewrite Hv in Hs. apply same_outcome_Ok in Hs. subst r. now exists schedule.
Qed.

End EventLoopEnds.

(* ================================================================= *)
(** * The outcome of a gather *)

Lemma returns_comprehension (run : IO -> Res Val) (subs : list IO) (rs : list Val) :
  Forall2 (returns run) subs rs -> comprehension run subs = Ok rs.
Proof. intros H. now apply comprehension_Forall2. Qed.

Lemma first_error_nth (rs : list Val) :
  forall (i : nat) (e : Val),
    nth_error rs i = Some (VStopFromError e) ->
    (forall j v, (j < i)%nat -> nth_error rs j = Some v -> is_StopFromError v = false) ->
    first_error rs = Some e.
Proof.
  induction rs as [| v rs IH]; intros i e Hi Hlt.
  - now destruct i.
  - destruct i as [| i]; simpl in Hi.
    + now injection Hi as ->.
    + assert (Hv : is_StopFromError v = false) by (apply (Hlt O v); [lia | reflexivity]).
      assert (Hrs : first_error rs = Some e).
      { apply (IH i); trivial. intros j w Hj Hw. apply (Hlt (Datatypes.S j) w); [lia | exact Hw]. }
      destruct v; simpl in *; trivial; discriminate.
Qed.

(** When a sub-program halted, [join] of file z0 halts the run with the
    first error, whatever the parent would do next. *)
Lemma IOBlocking_Gather_halts (subs : list IO) (rs : list Val) (e : Val) (k : Val -> IO) :
  Forall2 (returns IOBlocking.run_io) subs rs ->
  first_error rs = Some e ->
  IOBlocking.run_io (Yield (Gather subs) k) = Halted e.
Proof.
  intros Hrs He.
  now rewrite IOBlocking_run_io_Gather, (returns_comprehension Hrs), He.
Qed.

Lemma IOBlocking_join_completes (subs : list IO) (rs : list Val) :
  Forall2 (returns IOBlocking.run_io) subs rs ->
  first_error rs = None ->
  IOBlocking.run_io (join subs) = Completed (VList rs).
Proof.
  intros Hrs He. unfold join.
  now rewrite IOBlocking_run_io_Gather, (returns_comprehension Hrs), He.
Qed.

(** Under files 41 and 50 the parent is resumed with [ExitInPlace], and
    [gather] halts with the error. *)
Lemma IOAsync_gather_halts (subs : list IO) (rs : list Val) (e : Val) :
  Forall2 (returns IOAsync.run_io) subs rs ->
  first_error rs = Some e ->
  IOAsync.run_io (gather subs) = Halted e.
Proof.
  intros Hrs He. unfold gather.
  rewrite IOAsync_run_io_Gather, (returns_comprehension Hrs).
  unfold IOAsync.gather_reply. now rewrite He.
Qed.

Lemma IOAsync_gather_completes (subs : list IO) (rs : list Val) :
  Forall2 (returns IOAsync.run_io) subs rs ->
  first_error rs = None ->
  IOAsync.run_io (gather subs) = Completed (VList rs).
Proof.
  intros Hrs He. unfold gather.
  rewrite IOAsync_run_io_Gather, (returns_comprehension Hrs).
  unfold IOAsync.gather_reply. now rewrite He.
Qed.

Lemma IODeps_gather_halts (dep_resolver : string -> Res Val)
      (subs : list IO) (rs : list Val) (e : Val) :
  Forall2 (returns (IODeps.run_io dep_resolver)) subs rs ->
  first_error rs = Some e ->
  IODeps.run_io dep_resolver (gather subs) = Halted e.
Proof.
  intros Hrs He. unfold gather.
  rewrite IODeps_run_io_Gather, (returns_comprehension Hrs).
  unfold IOAsync.gather_reply. now rewrite He.
Qed.

Lemma IODeps_gather_completes (dep_resolver : string -> Res Val)
      (subs : list IO) (rs : list Val) :
  Forall2 (returns (IODeps.run_io dep_resolver)) subs rs ->
  first_error rs = None ->
  IODeps.run_io dep_resolver (gather subs) = Completed (VList rs).
Proof.
  intros Hrs He. unfold gather.
  rewrite IODeps_run_io_Gather, (returns_comprehension Hrs).
  unfold IOAsync.gather_reply. now rewrite He.
Qed.

(** A [recover_with] around the parent gets the error of the gather
    under files 41 and 50, and recovers. *)
Lemma IOAsync_gather_error_is_recovered (subs : list IO) (rs : list Val) (e : Val)
      (f : Val -> Val) :
  Forall2 (returns IOAsync.run_io) subs rs ->
  first_error rs = Some e ->
  IOAsync.run_io (recover_with (gather subs) f) = Completed (f e)
  /\ (forall schedule r,
         IOAsync.run_async schedule (recover_with (gather subs) f) = IOAsync.Done r ->
         r = Completed (f e))
  /\ exists schedule,
      IOAsync.run_async schedule (recover_with (gather subs) f)
      = IOAsync.Done (Completed (f e)).
Proof.
  intros Hrs He.
  assert (H : IOAsync.run_io (recover_with (gather subs) f) = Completed (f e)).
  { unfold gather. simpl recover_with.
    rewrite IOAsync_run_io_Gather, (returns_comprehension Hrs).
    unfold IOAsync.gather_reply. now rewrite He. }
  split; [exact H | split].
  - intros schedule r. now apply run_async_value.
  - now apply run_async_ends_with.
Qed.

Lemma IODeps_gather_error_is_recovered (dep_resolver : string -> Res Val)
      (subs : list IO) (rs : list Val) (e : Val) (f : Val -> Val) :
  Forall2 (returns (IODeps.run_io dep_resolver)) subs rs ->
  first_error rs = Some e ->
  IODeps.run_io dep_resolver (recover_with (gather subs) f) = Completed (f e).
Proof.
  intros Hrs He. unfold gather. simpl recover_with.
  rewrite IODeps_run_io_Gather, (returns_comprehension Hrs).
  unfold IOAsync.gather_reply. now rewrite He.
Qed.

(** Under file z0 it does not: the run returns the error. *)
Lemma IOBlocking_join_error_is_not_recovered (subs : list IO) (rs : list Val) (e : Val)
      (f : Val -> Val) :
  Forall2 (returns IOBlocking.run_io) subs rs ->
  first_error rs = Some e ->
  IOBlocking.run_io (recover_with (join subs) f) = Halted e.
Proof.
  intros Hrs He. unfold join. simpl recover_with.
  now apply IOBlocking_Gather_halts with (rs := rs).
Qed.

(** C1.  The run [r3] of [main] in [z0_io_basic_blocking.py]:
    [recover_with] around [prog2], whose gather has a sub-program that
    halts with [SuffixToLong].  The blocking interpreter returns the
    error of the sub-program as the result of the run; the parent is not
    resumed, so its [recover_with] does not see a halt, and the result
    is not the recovered value ["suffix error"].  The same program under
    the interpreters of files 41 and 50 completes with the recovered
    value. *)
Theorem blocking_gather_error_bypasses_recovery :
  IOBlocking.run_io (recover_with IOBlocking.prog2 main_recover) = Halted SuffixToLong
  /\ IOBlocking.run_io (recover_with IOBlocking.prog2 main_recover)
     <> Completed (main_recover SuffixToLong)
  /\ IOAsync.run_io (recover_with IOAsync.prog2 main_recover)
     = Completed (main_recover SuffixToLong)
  /\ (forall dep_resolver,
         IODeps.run_io dep_resolver (recover_with IOAsync.prog2 main_recover)
         = Completed (main_recover SuffixToLong)).
Proof.
  split; [reflexivity |]. split; [discriminate |]. split; reflexivity.
Qed.

(** Two sub-programs that sleep, and two schedules: under the first the
    sub-program of index 0 ends first, under the second that of index 1;
    both runs complete with the values in the order of the list. *)
Lemma gather_order_example :
  let p1 := yield_from (sleep (1 # 1)) (fun _ => Return (VInt 1)) in
  let p2 := yield_from (sleep (1 # 2)) (fun _ => Return (VInt 2)) in
  ended_subtasks (IOAsync.run_async [[]; [0]; [0]; [0]] (gather [p1; p2]))
  = [Some (Ok (VInt 1)); None]
  /\ ended_subtasks (IOAsync.run_async [[]; [1]; [1]; [1]] (gather [p1; p2]))
     = [None; Some (Ok (VInt 2))]
  /\ IOAsync.run_async [[]; [0]; [0]; [0]; [1]; [1]; [1]; []; []] (gather [p1; p2])
     = IOAsync.Done (Completed (VList [VInt 1; VInt 2]))
  /\ IOAsync.run_async [[]; [1]; [1]; [1]; [0]; [0]; [0]; []; []] (gather [p1; p2])
     = IOAsync.Done (Completed (VList [VInt 1; VInt 2])).
Proof. repeat split; reflexivity. Qed.

(** C2.  [gather([pure(1), halt("x"), pure(3)])] ends in [Halted("x")]
    under the blocking interpreter of file z0 (where the operation is
    [join]) and under the asynchronous one of file 41, there under every
    schedule of the event loop, and some schedule ends.  In general,
    when the sub-programs end with the results [pre ++ Halted(e) ::
    post], no result of [pre] being a halt, the run of the gather is
    [Halted(e)], whatever [post] holds: later halts are discarded. *)
Theorem gather_halts_with_first_error :
  IOBlocking.run_io (join [pure (VInt 1); halt_with_error (VStr "x"); pure (VInt 3)])
  = Halted (VStr "x")
  /\ IOAsync.run_io (gather [pure (VInt 1); halt_with_error (VStr "x"); pure (VInt 3)])
     = Halted (VStr "x")
  /\ (forall schedule r,
         IOAsync.run_async schedule
           (gather [pure (VInt 1); halt_with_error (VStr "x"); pure (VInt 3)])
         = IOAsync.Done r ->
         r = Halted (VStr "x"))
  /\ (exists schedule,
         IOAsync.run_async schedule
           (gather [pure (VInt 1); halt_with_error (VStr "x"); pure (VInt 3)])
         = IOAsync.Done (Halted (VStr "x")))
  /\ (forall (subs : list IO) (pre post : list Val) (e : Val),
         Forall2 (returns IOBlocking.run_io) subs (pre ++ VStopFromError e :: post)%list ->
         Forall (fun v => is_StopFromError v = false) pre ->
         IOBlocking.run_io (join subs) = Halted e)
  /\ (forall (subs : list IO) (pre post : list Val) (e : Val),
         Forall2 (returns IOAsync.run_io) subs (pre ++ VStopFromError e :: post)%list ->
         Forall (fun v => is_StopFromError v = false) pre ->
         IOAsync.run_io (gather subs) = Halted e
         /\ (forall schedule r,
                IOAsync.run_async schedule (gather subs) = IOAsync.Done r -> r = Halted e)
         /\ exists schedule,
             IOAsync.run_async schedule (gather subs) = IOAsync.Done (Halted e)).
Proof.
  split; [reflexivity |]. split; [reflexivity |].
  split; [| split; [| split]].
  - intros schedule r. now apply run_async_value.
  - now apply run_async_ends_with.
  - intros subs pre post e Hrs Hpre. unfold join.
    apply IOBlocking_Gather_halts with (rs := (pre ++ VStopFromError e :: post)%list); trivial.
    now apply first_error_app.
  - intros subs pre post e Hrs Hpre.
    assert (H : IOAsync.run_io (gather subs) = Halted e).
    { apply IOAsync_gather_halts with (rs := (pre ++ VStopFromError e :: post)%list); trivial.
      now apply first_error_app. }
    split; [exact H | split].
    + intros schedule r. now apply run_async_value.
    + now apply run_async_ends_with.
Qed.

(** The witness: two sub-programs halt, and the error is that of the
    first of them. *)
Lemma gather_halts_with_first_error_witness :
  Forall2 (returns IOAsync.run_io)
          [pure (VInt 1); halt_with_error (VStr "x"); halt_with_error (VStr "y")]
          ([VInt 1] ++ VStopFromError (VStr "x") :: [VStopFromError (VStr "y")])%list
  /\ Forall (fun v => is_StopFromError v = false) [VInt 1]
  /\ IOAsync.run_io
       (gather [pure (VInt 1); halt_with_error (VStr "x"); halt_with_error (VStr "y")])
     = Halted (VStr "x").
Proof.
  assert (H1 : Forall2 (returns IOAsync.run_io)
                 [pure (VInt 1); halt_with_error (VStr "x"); halt_with_error (VStr "y")]
                 ([VInt 1] ++ VStopFromError (VStr "x") :: [VStopFromError (VStr "y")])%list)
    by (repeat constructor).
  assert (H2 : Forall (fun v => is_StopFromError v = false) [VInt 1])
    by (repeat constructor).
  split; [exact H1 | split; [exact H2 |]].
  exact (proj1 (proj2 (proj2 (proj2 (proj2 (proj2 gather_halts_with_first_error))))
                  _ _ _ _ H1 H2)).
Defined.

(** C3.  [gather([pure(1), pure(2), pure(3)])] completes with
    [[1, 2, 3]] under the blocking interpreter of file z0 and under the
    asynchronous one of file 41, there under every schedule of the event
    loop, in whatever order the sub-programs end, and some schedule
    ends.  In general, when the sub-programs [subs] complete with the
    values [rs], the one of index [i] with the value of index [i], the
    gather completes with the list [rs]. *)
Theorem gather_collects_in_list_order :
  IOBlocking.run_io (join [pure (VInt 1); pure (VInt 2); pure (VInt 3)])
  = Completed (VList [VInt 1; VInt 2; VInt 3])
  /\ IOAsync.run_io (gather [pure (VInt 1); pure (VInt 2); pure (VInt 3)])
     = Completed (VList [VInt 1; VInt 2; VInt 3])
  /\ (forall schedule r,
         IOAsync.run_async schedule (gather [pure (VInt 1); pure (VInt 2); pure (VInt 3)])
         = IOAsync.Done r ->
         r = Completed (VList [VInt 1; VInt 2; VInt 3]))
  /\ (exists schedule,
         IOAsync.run_async schedule (gather [pure (VInt 1); pure (VInt 2); pure (VInt 3)])
         = IOAsync.Done (Completed (VList [VInt 1; VInt 2; VInt 3])))
  /\ (forall (subs : list IO) (rs : list Val),
         Forall2 (returns IOBlocking.run_io) subs rs ->
         Forall (fun v => is_StopFromError v = false) rs ->
         IOBlocking.run_io (join subs) = Completed (VList rs))
  /\ (forall (subs : list IO) (rs : list Val),
         Forall2 (returns IOAsync.run_io) subs rs ->
         Forall (fun v => is_StopFromError v = false) rs ->
         IOAsync.run_io (gather subs) = Completed (VList rs)
         /\ (forall schedule r,
                IOAsync.run_async schedule (gather subs) = IOAsync.Done r ->
                r = Completed (VList rs))
         /\ exists schedule,
             IOAsync.run_async schedule (gather subs) = IOAsync.Done (Completed (VList rs))).
Proof.
  split; [reflexivity |]. split; [reflexivity |].
  split; [| split; [| split]].
  - intros schedule r. now apply run_async_value.
  - now apply run_async_ends_with.
  - intros subs rs Hrs Hok. apply IOBlocking_join_completes; trivial.
    now apply first_error_None.
  - intros subs rs Hrs Hok.
    assert (H : IOAsync.run_io (gather subs) = Completed (VList rs)).
    { apply IOAsync_gather_completes; trivial. now apply first_error_None. }
    split; [exact H | split].
    + intros schedule r. now apply run_async_value.
    + now apply run_async_ends_with.
Qed.

(** The witness: [prog1] of file 41 up to the concatenation, the
    sub-program of index 1 sleeping less than that of index 0. *)
Lemma gather_collects_in_list_order_witness :
  Forall2 (returns IOAsync.run_io)
          [IOAsync.prefix_of "abcdefgh" 4; IOAsync.suffix_of "abcdefgh" 2]
          [VStr "abcd"; VStr "gh"]
  /\ Forall (fun v => is_StopFromError v = false) [VStr "abcd"; VStr "gh"]
  /\ IOAsync.run_io (gather [IOAsync.prefix_of "abcdefgh" 4; IOAsync.suffix_of "abcdefgh" 2])
     = Completed (VList [VStr "abcd"; VStr "gh"]).
Proof.
  assert (H1 : Forall2 (returns IOAsync.run_io)
                 [IOAsync.prefix_of "abcdefgh" 4; IOAsync.suffix_of "abcdefgh" 2]
                 [VStr "abcd"; VStr "gh"])
    by (repeat constructor).
  assert (H2 : Forall (fun v => is_StopFromError v = false) [VStr "abcd"; VStr "gh"])
    by (repeat constructor).
  split; [exact H1 | split; [exact H2 |]].
  exact (proj1 (proj2 (proj2 (proj2 (proj2 (proj2 gather_collects_in_list_order))))
                  _ _ H1 H2)).
Defined.

(** When the parent of a [Gathering] is resumed, every sub-task has
    returned, and the parent gets the reply made from all the results;
    when a [Gathering] ends without resuming the parent, a sub-task
    raised. *)
Lemma step_Gathering_resumes (path : list nat) (subs : list IOAsync.Task) (k : Val -> IO)
      (exp : IO) :
  IOAsync.step path (IOAsync.Gathering subs k) = IOAsync.Running exp ->
  exists sub_results,
    IOAsync.results subs = Some sub_results
    /\ List.length sub_results = List.length subs
    /\ exp = k (IOAsync.gather_reply sub_results).
Proof.
  simpl. destruct (IOAsync.raised subs); [discriminate |].
  destruct (IOAsync.results subs) as [rs |] eqn:Hrs.
  - intros [= <-]. exists rs. repeat split.
    clear - Hrs. revert rs Hrs. induction subs as [| s subs IH]; simpl; intros rs Hrs.
    + now injection Hrs as <-.
    + destruct s as [e | k' | subs' k' | [v | x]]; try discriminate.
      destruct (IOAsync.results subs) as [vs |]; [| discriminate].
      injection Hrs as <-. simpl. now rewrite (IH vs eq_refl).
  - destruct path; discriminate.
Qed.

Lemma step_Gathering_ends (path : list nat) (subs : list IOAsync.Task) (k : Val -> IO)
      (r : Res Val) :
  IOAsync.step path (IOAsync.Gathering subs k) = IOAsync.Done r ->
  exists x, r = Exc x /\ IOAsync.raised subs = Some x.
Proof.
  simpl. destruct (IOAsync.raised subs) as [x |].
  - intros [= <-]. now exists x.
  - destruct (IOAsync.results subs); [discriminate |]. destruct path; discriminate.
Qed.

(** C10.  Under the interpreters of files z0, 50 and 41, when the
    sub-programs of a gather end with the results [rs] and the result of
    index [i] is a halt with [e], no result of a smaller index being a
    halt, the run of the gather is [Halted(e)]; under file 41 this is so
    under every schedule of the event loop, in whatever order the
    sub-programs ended, and some schedule ends.  Every sub-program is run
    to its end before the outcome is made: the reply to [Gather] is a
    function of the results of all the sub-runs, an exception of a
    sub-run is that of the gather even after another sub-program halted,
    and in the event loop the parent is resumed only when every
    sub-task has returned, with the reply made from all the results. *)
Theorem gather_runs_all_and_reports_smallest_index :
  (forall (subs : list IO) (rs : list Val) (i : nat) (e : Val),
      Forall2 (returns IOBlocking.run_io) subs rs ->
      nth_error rs i = Some (VStopFromError e) ->
      (forall j v, (j < i)%nat -> nth_error rs j = Some v -> is_StopFromError v = false) ->
      IOBlocking.run_io (join subs) = Halted e)
  /\ (forall (dep_resolver : string -> Res Val) (subs : list IO) (rs : list Val)
             (i : nat) (e : Val),
         Forall2 (returns (IODeps.run_io dep_resolver)) subs rs ->
         nth_error rs i = Some (VStopFromError e) ->
         (forall j v, (j < i)%nat -> nth_error rs j = Some v -> is_StopFromError v = false) ->
         IODeps.run_io dep_resolver (gather subs) = Halted e)
  /\ (forall (subs : list IO) (rs : list Val) (i : nat) (e : Val),
         Forall2 (returns IOAsync.run_io) subs rs ->
         nth_error rs i = Some (VStopFromError e) ->
         (forall j v, (j < i)%nat -> nth_error rs j = Some v -> is_StopFromError v = false) ->
         IOAsync.run_io (gather subs) = Halted e
         /\ (forall schedule r,
                IOAsync.run_async schedule (gather subs) = IOAsync.Done r -> r = Halted e)
         /\ exists schedule,
             IOAsync.run_async schedule (gather subs) = IOAsync.Done (Halted e))
  /\ (forall subs : list IO,
         IOBlocking.run_single_command (Gather subs)
         = match comprehension IOBlocking.run_io subs with
           | Exc x => Exc x
           | Ok sub_results =>
             match first_error sub_results with
             | Some error => Ok (VStopFromError error)
             | None => Ok (VList sub_results)
             end
           end)
  /\ (forall (dep_resolver : string -> Res Val) (subs : list IO),
         IODeps.run_single_command dep_resolver (Gather subs)
         = match comprehension (IODeps.run_io dep_resolver) subs with
           | Exc x => Exc x
           | Ok sub_results => Ok (IOAsync.gather_reply sub_results)
           end)
  /\ (forall subs : list IO,
         IOAsync.run_single_command (Gather subs)
         = match comprehension IOAsync.run_io subs with
           | Exc x => Exc x
           | Ok sub_results => Ok (IOAsync.gather_reply sub_results)
           end)
  /\ IOBlocking.run_io (join [halt_with_error (VStr "x"); Raise RuntimeError])
     = Exc RuntimeError
  /\ (forall dep_resolver,
         IODeps.run_io dep_resolver (gather [halt_with_error (VStr "x"); Raise RuntimeError])
         = Exc RuntimeError)
  /\ (forall (path : list nat) (subs : list IOAsync.Task) (k : Val -> IO) (exp : IO),
         IOAsync.step path (IOAsync.Gathering subs k) = IOAsync.Running exp ->
         exists sub_results,
           IOAsync.results subs = Some sub_results
           /\ List.length sub_results = List.length subs
           /\ exp = k (IOAsync.gather_reply sub_results))
  /\ (forall (path : list nat) (subs : list IOAsync.Task) (k : Val -> IO) (r : Res Val),
         IOAsync.step path (IOAsync.Gathering subs k) = IOAsync.Done r ->
         exists x, r = Exc x /\ IOAsync.raised subs = Some x).
Proof.
  split; [| split; [| split; [| split; [| split; [| split; [| split;
    [| split; [| split]]]]]]]].
  - intros subs rs i e Hrs Hi Hlt. unfold join.
    apply IOBlocking_Gather_halts with (rs := rs); trivial.
    now apply first_error_nth with (i := i).
  - intros dep_resolver subs rs i e Hrs Hi Hlt.
    apply IODeps_gather_halts with (rs := rs); trivial.
    now apply first_error_nth with (i := i).
  - intros subs rs i e Hrs Hi Hlt.
    assert (H : IOAsync.run_io (gather subs) = Halted e).
    { apply IOAsync_gather_halts with (rs := rs); trivial.
      now apply first_error_nth with (i := i). }
    split; [exact H | split].
    + intros schedule r. now apply run_async_value.
    + now apply run_async_ends_with.
  - apply IOBlocking_run_single_command_Gather.
  - apply IODeps_run_single_command_Gather.
  - apply IOAsync_run_single_command_Gather.
  - reflexivity.
  - reflexivity.
  - apply step_Gathering_resumes.
  - apply step_Gathering_ends.
Qed.

(** The witness: the sub-programs of index 1 and 2 halt, that of index 2
    without a sleep and that of index 1 after one, and the error is that
    of index 1. *)
Lemma gather_runs_all_and_reports_smallest_index_witness :
  Forall2 (returns IOAsync.run_io)
          [pure (VInt 1);
           yield_from (sleep (1 # 1)) (fun _ => halt_with_error (VStr "x"));
           halt_with_error (VStr "y")]
          [VInt 1; VStopFromError (VStr "x"); VStopFromError (VStr "y")]
  /\ nth_error [VInt 1; VStopFromError (VStr "x"); VStopFromError (VStr "y")] 1
     = Some (VStopFromError (VStr "x"))
  /\ IOAsync.run_io
       (gather [pure (VInt 1);
                yield_from (sleep (1 # 1)) (fun _ => halt_with_error (VStr "x"));
                halt_with_error (VStr "y")])
     = Halted (VStr "x").
Proof.
  assert (H1 : Forall2 (returns IOAsync.run_io)
                 [pure (VInt 1);
                  yield_from (sleep (1 # 1)) (fun _ => halt_with_error (VStr "x"));
                  halt_with_error (VStr "y")]
                 [VInt 1; VStopFromError (VStr "x"); VStopFromError (VStr "y")])
    by (repeat constructor).
  assert (H2 : nth_error [VInt 1; VStopFromError (VStr "x"); VStopFromError (VStr "y")] 1
               = Some (VStopFromError (VStr "x"))) by reflexivity.
  assert (H3 : forall j v, (j < 1)%nat ->
                 nth_error [VInt 1; VStopFromError (VStr "x"); VStopFromError (VStr "y")] j
                 = Some v ->
                 is_StopFromError v = false).
  { intros j v Hj. destruct j as [| j]; [| lia]. simpl. now intros [= <-]. }
  split; [exact H1 | split; [exact H2 |]].
  exact (proj1 (proj1 (proj2 (proj2 gather_runs_all_and_reports_smallest_index))
                      _ _ _ _ H1 H2 H3)).
Defined.

(* ================================================================= *)
(** * More on the recovery combinators *)

Section RecoveryAlgebra.
Context {Y S A : Type} `{HasStopFromError Y}.

Lemma recovered_without_halt (recover : Val -> A) (t : list Y) (r : option (Res A)) :
  Forall (fun y => as_StopFromError y = None) t -> recovered recover t r = (t, r).
Proof.
  induction 1 as [| y t Hy _ IH]; simpl; trivial.
  now rewrite Hy, IH.
Qed.

Lemma trace_recover_with_twice (p : Gen Y S A) (f g : Val -> A) (replies : list S) :
  trace replies (recover_with (recover_with p f) g) = trace replies (recover_with p f).
Proof.
  revert replies; induction p as [a | y k IH | x]; intros replies; simpl; trivial.
  destruct (as_StopFromError y) eqn:Hy; simpl; trivial.
  rewrite Hy. destruct replies as [| v replies]; simpl; trivial.
  now rewrite IH.
Qed.

Lemma trace_recover_with_either_Return (p : Gen Y S A) (f : Val -> A) (replies : list S) :
  trace replies (recover_with_either p (fun e => Return (f e)))
  = trace replies (recover_with p f).
Proof.
  revert replies; induction p as [a | y k IH | x]; intros replies; simpl; trivial.
  destruct (as_StopFromError y) eqn:Hy; simpl; trivial.
  destruct replies as [| v replies]; simpl; trivial.
  now rewrite IH.
Qed.

(** Through [_RecoverWith], whatever the decorated object is (a
    generator or another wrapper), a driver sees the requests of the
    decorated object before its first [StopFromError], and then the
    completion with the recovered value. *)
Lemma RecoverWith_observe {G} `{Sendable G Y S A} (recover : Val -> A) (sends : list S) :
  forall d : G,
    observe sends (mkRecoverWith d recover)
    = recovered recover (fst (observe sends d)) (snd (observe sends d)).
Proof.
  induction sends as [| v sends IH]; intros d; trivial.
  rewrite !observe_cons.
  change (send (mkRecoverWith d recover) v)
    with (match send d v with
          | Yielded y d' =>
            match as_StopFromError y with
            | Some error => StopIteration (recover error)
            | None => Yielded y (mkRecoverWith d' recover)
            end
          | StopIteration a => StopIteration a
          | Raised x => Raised x
          end).
  destruct (send d v) as [y d' | a | x]; trivial.
  destruct (as_StopFromError y) eqn:Hy.
  - destruct (observe sends d'); simpl. now rewrite Hy.
  - rewrite IH. destruct (observe sends d') as [t r]; simpl. rewrite Hy.
    now destruct (recovered recover t r).
Qed.

End RecoveryAlgebra.

(** X1.  A program that does not halt is left as it is by
    [recover_with]: when no request that a driver sees of [program]
    under [replies] is a [StopFromError], it sees of
    [recover_with(program, f)] the same requests and the same end. *)
Theorem recover_with_without_halt_is_identity (Y S A : Type) (HS : HasStopFromError Y)
        (program : Gen Y S A) (f : Val -> A) (replies : list S) :
  Forall (fun y => as_StopFromError y = None) (fst (trace replies program)) ->
  trace replies (recover_with program f) = trace replies program.
Proof.
  intros Hno. rewrite trace_recover_with, recovered_without_halt by trivial.
  now destruct (trace replies program).
Qed.

Lemma recover_with_without_halt_is_identity_witness :
  Forall (fun y => as_StopFromError y = None)
         (fst (trace [VNone] (yield_from (sleep (1 # 1)) (fun _ => Return (VInt 5)))))
  /\ trace [VNone] (recover_with (yield_from (sleep (1 # 1)) (fun _ => Return (VInt 5)))
                                 (fun _ => VInt (-1)))
     = trace [VNone] (yield_from (sleep (1 # 1)) (fun _ => Return (VInt 5))).
Proof.
  assert (H : Forall (fun y => as_StopFromError y = None)
                (fst (trace [VNone] (yield_from (sleep (1 # 1)) (fun _ => Return (VInt 5))))))
    by (repeat constructor).
  split; [exact H |].
  exact (recover_with_without_halt_is_identity _ _ (fun _ => VInt (-1)) [VNone] H).
Defined.

(** X2.  Recovering twice is recovering once: a second [recover_with]
    around a recovered program never recovers anything, whatever its
    function. *)
Theorem recover_with_twice_is_once (Y S A : Type) (HS : HasStopFromError Y)
        (program : Gen Y S A) (f g : Val -> A) (replies : list S) :
  trace replies (recover_with (recover_with program f) g)
  = trace replies (recover_with program f).
Proof. apply trace_recover_with_twice. Qed.

(** X3.  [recover_with_either] whose recovery program only returns
    [f(e)] is [recover_with] with [f]: the two combinators show a driver
    the same requests and the same end, and the object with its
    [decorated_recover] field answers as the [_RecoverWith] object. *)
Theorem recover_with_either_of_pure_is_recover_with (Y S A : Type) (HN : NoneLike S)
        (HS : HasStopFromError Y) (program : Gen Y S A) (f : Val -> A) :
  (forall replies : list S,
      trace replies (recover_with_either program (fun e => Return (f e)))
      = trace replies (recover_with program f))
  /\ (forall sends : list S,
         observe sends (mkRecoverWithEither (Unstarted program)
                                            (fun e => Unstarted (Return (f e))) None)
         = observe sends (mkRecoverWith (Unstarted program) f)).
Proof.
  split.
  - intros; apply trace_recover_with_either_Return.
  - intros sends.
    rewrite (RecoverWithEither_reifies program (fun e => Return (f e))), RecoverWith_reifies.
    apply observe_Unstarted_ext. intros; apply trace_recover_with_either_Return.
Qed.

Section RecoveryUnderRunLoop.
Context {Y : Type} `{HasStopFromError Y} (run_single_command : Y -> Res Val).
Hypothesis run_single_command_stop :
  forall command error,
    as_StopFromError command = Some error ->
    run_single_command command = Ok (VStopFromError error).

Lemma run_loop_recover_with (p : Gen Y Val Val) (f : Val -> Val) :
  match run_loop run_single_command p with
  | Ok v => is_StopFromError v = false
  | Exc _ => True
  end ->
  run_loop run_single_command (recover_with p f) = run_loop run_single_command p.
Proof.
  induction p as [a | y k IH | x]; simpl; trivial.
  destruct (as_StopFromError y) as [error |] eqn:Hy.
  - rewrite (run_single_command_stop Hy). simpl. discriminate.
  - simpl. destruct (run_single_command y) as [v |]; trivial.
    destruct (is_StopFromError v); trivial. apply IH.
Qed.

Lemma run_loop_recover_with_either (p : Gen Y Val Val) (g : Val -> Gen Y Val Val) :
  match run_loop run_single_command p with
  | Ok v => is_StopFromError v = false
  | Exc _ => True
  end ->
  run_loop run_single_command (recover_with_either p g) = run_loop run_single_command p.
Proof.
  induction p as [a | y k IH | x]; simpl; trivial.
  destruct (as_StopFromError y) as [error |] eqn:Hy.
  - rewrite (run_single_command_stop Hy). simpl. discriminate.
  - simpl. destruct (run_single_command y) as [v |]; trivial.
    destruct (is_StopFromError v); trivial. apply IH.
Qed.

End RecoveryUnderRunLoop.

Lemma run_loop_yield_from_Ok {Y} (run_single_command : Y -> Res Val)
      (a : Gen Y Val Val) (rest : Val -> Gen Y Val Val) (v : Val) :
  run_loop run_single_command a = Ok v ->
  is_StopFromError v = false ->
  run_loop run_single_command (yield_from a rest) = run_loop run_single_command (rest v).
Proof.
  intros Ha Hv. induction a as [w | y k IH | x]; simpl in *.
  - now injection Ha as ->.
  - destruct (run_single_command y) as [s |]; [| discriminate].
    destruct (is_StopFromError s) eqn:Hs.
    + injection Ha as ->. congruence.
    + now apply IH.
  - discriminate.
Qed.

Lemma run_loop_yield_from_Exc {Y} (run_single_command : Y -> Res Val)
      (a : Gen Y Val Val) (rest : Val -> Gen Y Val Val) (x : Exn) :
  run_loop run_single_command a = Exc x ->
  run_loop run_single_command (yield_from a rest) = Exc x.
Proof.
  intros Ha. induction a as [w | y k IH | x']; simpl in *; trivial.
  - discriminate.
  - destruct (run_single_command y) as [s |]; trivial.
    destruct (is_StopFromError s); [discriminate |]. now apply IH.
Qed.

Lemma Either_run_single_command_stop (command : Either.EitherYield) (error : Val) :
  as_StopFromError command = Some error ->
  Either.run_single_command command = Ok (VStopFromError error).
Proof. destruct command. now intros [= <-]. Qed.

Lemma IOBlocking_run_single_command_stop (command : IOYield) (error : Val) :
  as_StopFromError command = Some error ->
  IOBlocking.run_single_command command = Ok (VStopFromError error).
Proof. destruct command; try discriminate. now intros [= <-]. Qed.

Lemma IOAsync_run_single_command_stop (command : IOYield) (error : Val) :
  as_StopFromError command = Some error ->
  IOAsync.run_single_command command = Ok (VStopFromError error).
Proof. destruct command; try discriminate. now intros [= <-]. Qed.

Lemma IODeps_run_single_command_stop (dep_resolver : string -> Res Val)
      (command : IOYield) (error : Val) :
  as_StopFromError command = Some error ->
  IODeps.run_single_command dep_resolver command = Ok (VStopFromError error).
Proof. destruct command; try discriminate. now intros [= <-]. Qed.

(** X4.  The recovery combinators change halted runs only.  Under
    [run_either] and under each of the three [run_io], when the run of
    [program] raises an exception, or returns a value that is not a
    [StopFromError], the runs of [recover_with(program, f)] and of
    [recover_with_either(program, g)] do the same: an exception outside
    the protocol is never caught, and a completed run is never
    altered. *)
Theorem recovery_changes_only_halted_runs :
  (forall (program : Either.Either) (f : Val -> Val) (g : Val -> Either.Either),
      match Either.run_either program with
      | Ok v => is_StopFromError v = false
      | Exc _ => True
      end ->
      Either.run_either (recover_with program f) = Either.run_either program
      /\ Either.run_either (recover_with_either program g) = Either.run_either program)
  /\ (forall (program : IO) (f : Val -> Val) (g : Val -> IO),
         match IOBlocking.run_io program with
         | Ok v => is_StopFromError v = false
         | Exc _ => True
         end ->
         IOBlocking.run_io (recover_with program f) = IOBlocking.run_io program
         /\ IOBlocking.run_io (recover_with_either program g) = IOBlocking.run_io program)
  /\ (forall (program : IO) (f : Val -> Val) (g : Val -> IO),
         match IOAsync.run_io program with
         | Ok v => is_StopFromError v = false
         | Exc _ => True
         end ->
         IOAsync.run_io (recover_with program f) = IOAsync.run_io program
         /\ IOAsync.run_io (recover_with_either program g) = IOAsync.run_io program)
  /\ (forall (dep_resolver : string -> Res Val) (program : IO) (f : Val -> Val)
             (g : Val -> IO),
         match IODeps.run_io dep_resolver program with
         | Ok v => is_StopFromError v = false
         | Exc _ => True
         end ->
         IODeps.run_io dep_resolver (recover_with program f)
         = IODeps.run_io dep_resolver program
         /\ IODeps.run_io dep_resolver (recover_with_either program g)
            = IODeps.run_io dep_resolver program).
Proof.
  split; [| split; [| split]].
  - intros program f g Hp. split.
    + apply run_loop_recover_with; [apply Either_run_single_command_stop | exact Hp].
    + apply run_loop_recover_with_either; [apply Either_run_single_command_stop | exact Hp].
  - intros program f g Hp. split.
    + apply run_loop_recover_with; [apply IOBlocking_run_single_command_stop | exact Hp].
    + apply run_loop_recover_with_either; [apply IOBlocking_run_single_command_stop | exact Hp].
  - intros program f g Hp. split.
    + apply run_loop_recover_with; [apply IOAsync_run_single_command_stop | exact Hp].
    + apply run_loop_recover_with_either; [apply IOAsync_run_single_command_stop | exact Hp].
  - intros dep_resolver program f g Hp. split.
    + apply run_loop_recover_with; [apply IODeps_run_single_command_stop | exact Hp].
    + apply run_loop_recover_with_either; [apply IODeps_run_single_command_stop | exact Hp].
Qed.

(** The witness: a gather with a sub-program that raises, under file 41:
    the exception is that of the run, recovered or not. *)
Lemma recovery_changes_only_halted_runs_witness :
  match IOAsync.run_io (gather [pure (VInt 1); Raise RuntimeError]) with
  | Ok v => is_StopFromError v = false
  | Exc _ => True
  end
  /\ IOAsync.run_io (recover_with (gather [pure (VInt 1); Raise RuntimeError])
                                  (fun _ => VInt (-1)))
     = IOAsync.run_io (gather [pure (VInt 1); Raise RuntimeError]).
Proof.
  assert (H : match IOAsync.run_io (gather [pure (VInt 1); Raise RuntimeError]) with
              | Ok v => is_StopFromError v = false
              | Exc _ => True
              end) by exact I.
  split; [exact H |].
  exact (proj1 (proj1 (proj2 (proj2 recovery_changes_only_halted_runs))
                      (gather [pure (VInt 1); Raise RuntimeError])
                      (fun _ => VInt (-1)) (fun _ => pure VNone) H)).
Defined.

(** X5.  Delegation sequences runs.  Under each of the three [run_io]
    (and [run_either]), when the run of [a] returns a value [v] that is
    not a [StopFromError], the run of [x = yield from a; rest(x)] is the
    run of [rest(v)]; when the run of [a] raises, so does the run of the
    delegating program, and the code after the delegation does not
    run. *)
Theorem delegation_sequences_runs (Y : Type) (run_single_command : Y -> Res Val)
        (a : Gen Y Val Val) (rest : Val -> Gen Y Val Val) :
  (forall v,
      run_loop run_single_command a = Ok v ->
      is_StopFromError v = false ->
      run_loop run_single_command (yield_from a rest) = run_loop run_single_command (rest v))
  /\ (forall x,
         run_loop run_single_command a = Exc x ->
         run_loop run_single_command (yield_from a rest) = Exc x).
Proof.
  split.
  - intros v Hv Hns. now apply run_loop_yield_from_Ok.
  - intros x Hx. now apply run_loop_yield_from_Exc.
Qed.

(** The witness: [prog1] of file 41, whose gather completes, then
    concatenates. *)
Lemma delegation_sequences_runs_witness :
  IOAsync.run_io (gather [IOAsync.prefix_of "abcdefgh" 4; IOAsync.suffix_of "abcdefgh" 2])
  = Ok (VList [VStr "abcd"; VStr "gh"])
  /\ is_StopFromError (VList [VStr "abcd"; VStr "gh"]) = false
  /\ IOAsync.run_io IOAsync.prog1 = IOAsync.run_io (add_pair (VList [VStr "abcd"; VStr "gh"])).
Proof.
  assert (H1 : run_loop IOAsync.run_single_command
                 (gather [IOAsync.prefix_of "abcdefgh" 4; IOAsync.suffix_of "abcdefgh" 2])
               = Ok (VList [VStr "abcd"; VStr "gh"])) by reflexivity.
  assert (H2 : is_StopFromError (VList [VStr "abcd"; VStr "gh"]) = false) by reflexivity.
  split; [exact H1 | split; [exact H2 |]].
  exact (proj1 (delegation_sequences_runs IOAsync.run_single_command
                  (gather [IOAsync.prefix_of "abcdefgh" 4; IOAsync.suffix_of "abcdefgh" 2])
                  add_pair) _ H1 H2).
Defined.

(* ================================================================= *)
(** * The sugar of file 32 *)

Lemma send_Either {G} `{Sendable G Either.EitherYield Val Val} (d : G) (v : Val) :
  send (EitherSugar.mkEither d) v
  = match send d v with
    | Yielded y d' => Yielded y (EitherSugar.mkEither d')
    | StopIteration a => StopIteration a
    | Raised x => Raised x
    end.
Proof. reflexivity. Qed.

(** The [Either] wrapper shows the decorated object as it is. *)
Lemma Either_observe {G} `{Sendable G Either.EitherYield Val Val} (sends : list Val) :
  forall d : G, observe sends (EitherSugar.mkEither d) = observe sends d.
Proof.
  induction sends as [| v sends IH]; intros d; trivial.
  rewrite !observe_cons, send_Either.
  destruct (send d v) as [y d' | a | x]; trivial.
  now rewrite IH.
Qed.

(** X6.  Wrappers nest.  Through a [_RecoverWith] around any object with
    a [send] method (a generator, an [Either], another combinator), a
    driver sees, under every sequence of sends, the requests of the
    decorated object before its first [StopFromError] and then the
    completion with the recovered value; an exception or a completion of
    the decorated object passes as it is. *)
Theorem RecoverWith_around_any_object (G Y S A : Type) (HS : HasStopFromError Y)
        (HG : Sendable G Y S A) (decorated : G) (recover : Val -> A) (sends : list S) :
  observe sends (mkRecoverWith decorated recover)
  = recovered recover (fst (observe sends decorated)) (snd (observe sends decorated)).
Proof. apply RecoverWith_observe. Qed.

(** X7.  The method syntax of file 32 is that of the functions of files
    30 and 31.  For every generator body [p]: the object
    [Either(p).recover_with(f)] answers every sequence of sends as the
    tree [recover_with p f]; [run_either] on the objects
    [Either(p)], [Either(p).recover_with(f)] and
    [Either(p).recover_with_either(g)] gives what [run_either] of files
    30 and 31 gives on the corresponding programs. *)
Theorem Either_sugar_is_transparent (p : Either.Either) (f : Val -> Val)
        (g : Val -> Either.Either) :
  (forall sends : list Val,
      observe sends (EitherSugar.recover_with (EitherSugar.eitherable p) f)
      = observe sends (Unstarted (recover_with p f)))
  /\ EitherSugar.run_either (EitherSugar.eitherable p) = Either.run_either p
  /\ EitherSugar.run_either (EitherSugar.recover_with (EitherSugar.eitherable p) f)
     = Either.run_either (recover_with p f)
  /\ EitherSugar.run_either
       (EitherSugar.recover_with_either (EitherSugar.eitherable p)
                                        (fun e => EitherSugar.eitherable (g e)))
     = Either.run_either (recover_with_either p g).
Proof.
  split; [| split; [| split]].
  - intros sends. unfold EitherSugar.recover_with, EitherSugar.eitherable.
    rewrite Either_observe, RecoverWith_observe, Either_observe.
    rewrite <- RecoverWith_reifies. now rewrite RecoverWith_observe.
  - destruct p as [a | [e] k | x]; reflexivity.
  - destruct p as [a | [e] k | x]; reflexivity.
  - destruct p as [a | [e] k | x]; try reflexivity.
    unfold EitherSugar.run_either, EitherSugar.recover_with_either, EitherSugar.eitherable.
    simpl recover_with_either.
    destruct (g e) as [a | [e'] k' | x] eqn:Hg;
      cbv [send EitherSugar.Either_send RecoverWithEither_send Generator_send
           EitherSugar.e_decorated rwe_decorated rwe_recover rwe_decorated_recover
           resume next is_none none NoneLike_Val Either.halt_with_error
           as_StopFromError Either.EitherYield_stop];
      rewrite Hg; reflexivity.
Qed.

(* ================================================================= *)
(** * More on logging *)

Section MoreLogging.
Import Logging.

Lemma run_collecting_from_acc (p : LoggingGen) :
  forall acc,
    run_collecting_from acc p
    = match run_collecting p with
      | Ok (value, logs) => Ok (value, (acc ++ logs)%list)
      | Exc x => Exc x
      end.
Proof.
  unfold run_collecting.
  induction p as [a | y k IH | x]; intros acc; simpl; trivial.
  - now rewrite app_nil_r.
  - destruct y as [severity message |]; simpl.
    + rewrite (IH tt (acc ++ [LogMessage severity message])%list),
              (IH tt [LogMessage severity message]).
      destruct (run_collecting_from [] (k tt)) as [[value logs] |]; trivial.
      now rewrite <- app_assoc.
    + apply IH.
Qed.

Lemma run_collecting_from_yield_from (a : LoggingGen) (rest : Val -> LoggingGen) :
  forall acc,
    run_collecting_from acc (yield_from a rest)
    = match run_collecting_from acc a with
      | Ok (v, logs) => run_collecting_from logs (rest v)
      | Exc x => Exc x
      end.
Proof.
  induction a as [v | y k IH | x]; intros acc; simpl; trivial.
  destruct y as [severity message |]; apply IH.
Qed.

Lemma run_printing_from_run_collecting_from (p : LoggingGen) :
  forall acc,
    run_printing_from (map printed_line acc) p
    = match run_collecting_from acc p with
      | Ok (value, logs) => Ok (value, map printed_line logs)
      | Exc x => Exc x
      end.
Proof.
  induction p as [a | y k IH | x]; intros acc; simpl; trivial.
  destruct y as [severity message |]; simpl.
  - rewrite <- (IH tt). now rewrite map_app.
  - apply IH.
Qed.

Lemma run_collecting_from_only_messages (p : LoggingGen) :
  forall acc value logs,
    Forall (fun m => is_LogMessage m = true) acc ->
    run_collecting_from acc p = Ok (value, logs) ->
    Forall (fun m => is_LogMessage m = true) logs.
Proof.
  induction p as [a | y k IH | x]; intros acc value logs Hacc; simpl.
  - now intros [= _ <-].
  - destruct y as [severity message |]; simpl; apply IH; trivial.
    apply Forall_app. split; trivial. now constructor.
  - discriminate.
Qed.

Lemma run_collecting_from_transform_severity (p : LoggingGen) (from_sev to_sev : Severity) :
  forall acc,
    run_collecting_from (map (transform_request from_sev to_sev) acc)
                        (transform_severity p from_sev to_sev)
    = match run_collecting_from acc p with
      | Ok (value, logs) => Ok (value, map (transform_request from_sev to_sev) logs)
      | Exc x => Exc x
      end.
Proof.
  induction p as [a | y k IH | x]; intros acc; simpl; trivial.
  destruct y as [severity message |]; simpl.
  - rewrite <- (IH tt), map_app. simpl.
    now destruct (Severity_eqb severity from_sev).
  - apply IH.
Qed.

Lemma send_TransformSeverity {G} `{Sendable G LoggingYield unit Val}
      (d : G) (from_sev to_sev : Severity) (v : unit) :
  send (mkTransformSeverity d from_sev to_sev) v
  = match send d v with
    | Yielded y d' =>
      Yielded (transform_request from_sev to_sev y) (mkTransformSeverity d' from_sev to_sev)
    | StopIteration a => StopIteration a
    | Raised x => Raised x
    end.
Proof.
  cbv [send TransformSeverity_send t_decorated from_severity to_severity].
  match goal with |- context [match ?s d v with _ => _ end] => destruct (s d v) as [y d' | a | x] end;
    trivial.
  destruct y as [severity message |]; trivial. simpl.
  now destruct (Severity_eqb severity from_sev).
Qed.

Lemma TransformSeverity_observe {G} `{Sendable G LoggingYield unit Val}
      (from_sev to_sev : Severity) (sends : list unit) :
  forall d : G,
    observe sends (mkTransformSeverity d from_sev to_sev)
    = (map (transform_request from_sev to_sev) (fst (observe sends d)),
       snd (observe sends d)).
Proof.
  induction sends as [| v sends IH]; intros d; trivial.
  rewrite !observe_cons, send_TransformSeverity.
  destruct (send d v) as [y d' | a | x]; trivial.
  rewrite IH. now destruct (observe sends d').
Qed.

Lemma Severity_eqb_eq (a b : Severity) : Severity_eqb a b = true <-> a = b.
Proof. destruct a, b; simpl; split; congruence. Qed.

Lemma transform_request_severity (from_sev to_sev : Severity) (v : LoggingYield) :
  from_sev <> to_sev ->
  severity_of (transform_request from_sev to_sev v) <> Some from_sev.
Proof.
  intros Hne. destruct v as [severity message |]; simpl; [| discriminate].
  destruct (Severity_eqb severity from_sev) eqn:He; simpl.
  - congruence.
  - intros [= ->]. destruct from_sev; discriminate.
Qed.

Lemma trace_muted_transform_severity (p : LoggingGen) (from_sev to_sev : Severity)
      (replies : list unit) :
  trace replies (muted (transform_severity p from_sev to_sev)) = trace replies (muted p).
Proof.
  revert replies; induction p as [a | y k IH | x]; intros replies; simpl; trivial.
  destruct y as [severity message |]; simpl.
  - destruct (Severity_eqb severity from_sev); simpl;
      destruct replies as [| v replies]; simpl; trivial; now rewrite IH.
  - destruct replies as [| v replies]; simpl; trivial; now rewrite IH.
Qed.

Lemma trace_transform_severity_muted (p : LoggingGen) (from_sev to_sev : Severity)
      (replies : list unit) :
  trace replies (transform_severity (muted p) from_sev to_sev) = trace replies (muted p).
Proof.
  revert replies; induction p as [a | y k IH | x]; intros replies; simpl; trivial.
  destruct y as [severity message |]; simpl;
    destruct replies as [| v replies]; simpl; trivial; now rewrite IH.
Qed.

End MoreLogging.

(** X8.  The messages collected follow the order of the program:
    [run_collecting] of [x = yield from a; rest(x)] returns the value of
    [rest(v)], [v] being the value of [a], with the messages of [a]
    followed by those of [rest(v)]; when [a] raises, so does the
    whole. *)
Theorem collected_logs_follow_delegation (a : Logging.LoggingGen)
        (rest : Val -> Logging.LoggingGen) :
  Logging.run_collecting (yield_from a rest)
  = match Logging.run_collecting a with
    | Ok (v, logs_a) =>
      match Logging.run_collecting (rest v) with
      | Ok (value, logs_rest) => Ok (value, (logs_a ++ logs_rest)%list)
      | Exc x => Exc x
      end
    | Exc x => Exc x
    end.
Proof.
  unfold Logging.run_collecting at 1.
  rewrite run_collecting_from_yield_from.
  fold (Logging.run_collecting a).
  destruct (Logging.run_collecting a) as [[v logs_a] |]; trivial.
  apply run_collecting_from_acc.
Qed.

(** X9.  The three interpreters of the log effect agree.  For every
    program, [run_muted] returns the value that [run_collecting]
    returns, [run_printing] returns it too and prints one line
    [SEVERITY: message] per collected message, in the same order; what
    is collected are [LogMessage]s only, never a [Nop]. *)
Theorem logging_interpreters_agree (p : Logging.LoggingGen) :
  Logging.run_muted p
  = match Logging.run_collecting p with
    | Ok (value, _) => Ok value
    | Exc x => Exc x
    end
  /\ Logging.run_printing p
     = match Logging.run_collecting p with
       | Ok (value, logs) => Ok (value, map printed_line logs)
       | Exc x => Exc x
       end
  /\ match Logging.run_collecting p with
     | Ok (_, logs) => Forall (fun m => Logging.is_LogMessage m = true) logs
     | Exc _ => True
     end.
Proof.
  split; [| split].
  - apply run_muted_run_collecting.
  - apply (run_printing_from_run_collecting_from p []).
  - destruct (Logging.run_collecting p) as [[value logs] |] eqn:Hp; trivial.
    now apply (run_collecting_from_only_messages p (acc := [])) in Hp.
Qed.

(** X10.  [_TransformSeverity] rewrites the severity of the messages of
    one severity and nothing else.  Through the object, around any
    decorated object and under every sequence of sends, a driver sees
    each request with [from_severity] replaced by [to_severity] and
    every other request as it is; [run_collecting] of the transformed
    program returns the same value and the same number of messages, each
    rewritten in place; and after [errors_as_warning] no collected
    message has the severity [error]. *)
Theorem transform_severity_rewrites_in_place (p : Logging.LoggingGen)
        (from_sev to_sev : Logging.Severity) :
  (forall (G : Type) (HG : Sendable G Logging.LoggingYield unit Val) (d : G)
          (sends : list unit),
      observe sends (Logging.mkTransformSeverity d from_sev to_sev)
      = (map (transform_request from_sev to_sev) (fst (observe sends d)),
         snd (observe sends d)))
  /\ Logging.run_collecting (Logging.transform_severity p from_sev to_sev)
     = match Logging.run_collecting p with
       | Ok (value, logs) => Ok (value, map (transform_request from_sev to_sev) logs)
       | Exc x => Exc x
       end
  /\ match Logging.run_collecting (Logging.errors_as_warning p) with
     | Ok (_, logs) => Forall (fun m => severity_of m <> Some Logging.error) logs
     | Exc _ => True
     end.
Proof.
  split; [| split].
  - intros; apply TransformSeverity_observe.
  - apply (run_collecting_from_transform_severity p from_sev to_sev []).
  - unfold Logging.errors_as_warning.
    pose proof (run_collecting_from_transform_severity p Logging.error Logging.warning [])
      as Ht.
    simpl map in Ht. fold (Logging.run_collecting p) in Ht.
    fold (Logging.run_collecting (Logging.transform_severity p Logging.error Logging.warning))
      in Ht.
    rewrite Ht. destruct (Logging.run_collecting p) as [[value logs] |]; trivial.
    apply Forall_forall. intros m Hm. apply in_map_iff in Hm. destruct Hm as [m' [<- _]].
    apply transform_request_severity. discriminate.
Qed.

(** X11.  Muting absorbs a severity transform: muting a transformed
    program, or transforming a muted program, shows a driver what muting
    the program shows. *)
Theorem muted_absorbs_transform_severity (p : Logging.LoggingGen)
        (from_sev to_sev : Logging.Severity) (replies : list unit) :
  trace replies (Logging.muted (Logging.transform_severity p from_sev to_sev))
  = trace replies (Logging.muted p)
  /\ trace replies (Logging.transform_severity (Logging.muted p) from_sev to_sev)
     = trace replies (Logging.muted p).
Proof.
  split.
  - apply trace_muted_transform_severity.
  - apply trace_transform_severity_muted.
Qed.

(* ================================================================= *)
(** * More on the state effect *)

Lemma State_run_state_from_yield_from {S A B} (a : State S A) (rest : A -> State S B) :
  forall cell : S,
    State.run_state_from cell (yield_from a rest)
    = match State.run_state_from cell a with
      | Ok (v, cell') => State.run_state_from cell' (rest v)
      | Exc x => Exc x
      end.
Proof.
  induction a as [v | y k IH | x]; intros cell; simpl; trivial.
  destruct y as [tag | value]; apply IH.
Qed.

Lemma StateFixed_run_state_from_yield_from {A B} (a : State Container A)
      (rest : A -> State Container B) :
  forall cell : Container,
    StateFixed.run_state_from cell (yield_from a rest)
    = match StateFixed.run_state_from cell a with
      | Ok (v, cell') => StateFixed.run_state_from cell' (rest v)
      | Exc x => Exc x
      end.
Proof.
  induction a as [v | y k IH | x]; intros cell; simpl; trivial.
  destruct y as [tag | value]; apply IH.
Qed.

Lemma update_type_of (cell other : Container) :
  type_of (StateFixed.update cell other) = type_of cell.
Proof. destruct cell, other; reflexivity. Qed.

Lemma StateFixed_run_state_from_type_of {A} (et : State Container A) :
  forall (cell final : Container) (v : A),
    StateFixed.run_state_from cell et = Ok (v, final) -> type_of final = type_of cell.
Proof.
  induction et as [a | y k IH | x]; intros cell final v; simpl.
  - now intros [= _ <-].
  - destruct y as [tag | value]; intros Hrun; apply IH in Hrun; trivial.
    now rewrite Hrun, update_type_of.
  - discriminate.
Qed.

(** X12.  Delegation threads the state.  Under [run_state] of files 70
    and 71, the run of [x = yield from a; rest(x)] from a cell is the
    run of [rest(v)] from the cell as [a] left it, [v] being the value
    of [a]; when [a] raises, so does the whole. *)
Theorem delegation_threads_state :
  (forall (S A B : Type) (a : State S A) (rest : A -> State S B) (initial_state : S),
      State.run_state (yield_from a rest) initial_state
      = match State.run_state a initial_state with
        | Ok (v, cell) => State.run_state (rest v) cell
        | Exc x => Exc x
        end)
  /\ (forall (A B : Type) (a : State Container A) (rest : A -> State Container B)
             (initial_state : Container),
         StateFixed.run_state (yield_from a rest) initial_state
         = match StateFixed.run_state a initial_state with
           | Ok (v, cell) => StateFixed.run_state (rest v) cell
           | Exc x => Exc x
           end).
Proof.
  split.
  - intros; apply State_run_state_from_yield_from.
  - intros; apply StateFixed_run_state_from_yield_from.
Qed.

(** X13.  Under [run_state] of file 71 the cell keeps its class: whatever
    the program sets, the final state is an object of the class of the
    initial state (the cell is updated in place, never replaced). *)
Theorem fixed_cell_keeps_its_class (A : Type) (et : State Container A)
        (initial_state final_state : Container) (value : A) :
  StateFixed.run_state et initial_state = Ok (value, final_state) ->
  type_of final_state = type_of initial_state.
Proof. apply StateFixed_run_state_from_type_of. Qed.

Lemma fixed_cell_keeps_its_class_witness :
  StateFixed.run_state StateFixed.prog3 (ContainerAB "no" 0)
  = Ok (ContainerAB "hello" 1, ContainerAB "hello" 1)
  /\ type_of (ContainerAB "hello" 1) = type_of (ContainerAB "no" 0).
Proof.
  assert (H : StateFixed.run_state StateFixed.prog3 (ContainerAB "no" 0)
              = Ok (ContainerAB "hello" 1, ContainerAB "hello" 1)) by reflexivity.
  split; [exact H |].
  exact (fixed_cell_keeps_its_class StateFixed.prog3 (ContainerAB "no" 0) H).
Defined.

(** X14.  The algebra of [update] in file 71, for every cell: writes of
    the two facets commute; of two writes of objects of the same class
    the second wins; a write is idempotent; and a write of a facet that
    the class of the cell does not have changes nothing. *)
Theorem update_algebra (cell : Container) :
  (forall (a : Z) (b : string),
      StateFixed.update (StateFixed.update cell (ContainerA a)) (ContainerB b)
      = StateFixed.update (StateFixed.update cell (ContainerB b)) (ContainerA a))
  /\ (forall o1 o2 : Container,
         type_of o1 = type_of o2 ->
         StateFixed.update (StateFixed.update cell o1) o2 = StateFixed.update cell o2)
  /\ (forall o : Container,
         StateFixed.update (StateFixed.update cell o) o = StateFixed.update cell o)
  /\ (forall o : Container,
         isinstance cell (type_of o) = false ->
         isinstance o (type_of cell) = false ->
         StateFixed.update cell o = cell).
Proof.
  split; [| split; [| split]].
  - intros a b. now destruct cell.
  - intros o1 o2 Ho. destruct cell, o1, o2; try discriminate; reflexivity.
  - intros o. now destruct cell, o.
  - intros o H1 H2. destruct cell, o; try discriminate; reflexivity.
Qed.

Lemma update_algebra_witness :
  type_of (ContainerA 1) = type_of (ContainerA 2)
  /\ StateFixed.update (StateFixed.update (ContainerAB "no" 0) (ContainerA 1)) (ContainerA 2)
     = StateFixed.update (ContainerAB "no" 0) (ContainerA 2).
Proof.
  assert (H : type_of (ContainerA 1) = type_of (ContainerA 2)) by reflexivity.
  split; [exact H |].
  exact (proj1 (proj2 (update_algebra (ContainerAB "no" 0))) _ _ H).
Defined.

(** X15.  What file 71 fixes.  With a [ContainerAB] cell, after any
    program, [get_state(tag)] for any of the three classes returns the
    cell, which is an instance of [tag]. *)
Theorem fixed_get_state_is_instance_of_tag (A : Type) (a : State Container A)
        (initial_state result final_state : Container) (tag : PyClass) :
  type_of initial_state = cls_ContainerAB ->
  StateFixed.run_state (yield_from a (fun _ => get_state tag)) initial_state
  = Ok (result, final_state) ->
  isinstance result tag = true /\ result = final_state.
Proof.
  intros Hinit. unfold StateFixed.run_state.
  rewrite StateFixed_run_state_from_yield_from.
  destruct (StateFixed.run_state_from initial_state a) as [[v cell] |] eqn:Ha; [| discriminate].
  apply StateFixed_run_state_from_type_of in Ha. simpl.
  intros [= <- <-]. split; trivial.
  unfold isinstance. rewrite Ha, Hinit. reflexivity.
Qed.

Lemma fixed_get_state_is_instance_of_tag_witness :
  type_of (ContainerAB "no" 0) = cls_ContainerAB
  /\ StateFixed.run_state
       (yield_from (yield_from StateFixed.prog1 (fun _ => StateFixed.prog2))
                   (fun _ => get_state cls_ContainerA))
       (ContainerAB "no" 0)
     = Ok (ContainerAB "hello" 1, ContainerAB "hello" 1)
  /\ isinstance (ContainerAB "hello" 1) cls_ContainerA = true.
Proof.
  assert (H1 : type_of (ContainerAB "no" 0) = cls_ContainerAB) by reflexivity.
  assert (H2 : StateFixed.run_state
                 (yield_from (yield_from StateFixed.prog1 (fun _ => StateFixed.prog2))
                             (fun _ => get_state cls_ContainerA))
                 (ContainerAB "no" 0)
               = Ok (ContainerAB "hello" 1, ContainerAB "hello" 1)) by reflexivity.
  split; [exact H1 | split; [exact H2 |]].
  exact (proj1 (fixed_get_state_is_instance_of_tag
                  (yield_from StateFixed.prog1 (fun _ => StateFixed.prog2))
                  (ContainerAB "no" 0) cls_ContainerA H1 H2)).
Defined.

(* ================================================================= *)
(** * More on the interpreters of the IO effect *)

Lemma same_outcome_sym {A} (r1 r2 : Res A) : same_outcome r1 r2 -> same_outcome r2 r1.
Proof. destruct r1, r2; simpl; congruence || tauto. Qed.

Lemma run_schedule_Done (schedule : list (list nat)) (r : Res Val) :
  IOAsync.run_schedule schedule (IOAsync.Done r) = IOAsync.Done r.
Proof. induction schedule; simpl; trivial. Qed.

Lemma run_schedule_app (s1 s2 : list (list nat)) (t : IOAsync.Task) :
  IOAsync.run_schedule (s1 ++ s2) t = IOAsync.run_schedule s2 (IOAsync.run_schedule s1 t).
Proof. apply fold_left_app. Qed.

(** X16.  The event loop of file 41 is schedule-independent.  For every
    program: some schedule ends; a run that ends under a schedule ends
    with the result of [run_io] read with [await] as a call; two runs
    that end, under any two schedules, end alike (with the same value,
    or both with an exception); and a run that has ended stays as it is
    whatever the loop is asked to run next. *)
Theorem event_loop_is_schedule_independent (exp : IO) :
  (exists schedule r, IOAsync.run_async schedule exp = IOAsync.Done r)
  /\ (forall schedule r,
         IOAsync.run_async schedule exp = IOAsync.Done r ->
         same_outcome (IOAsync.run_io exp) r)
  /\ (forall s1 s2 r1 r2,
         IOAsync.run_async s1 exp = IOAsync.Done r1 ->
         IOAsync.run_async s2 exp = IOAsync.Done r2 ->
         same_outcome r1 r2)
  /\ (forall schedule more r,
         IOAsync.run_async schedule exp = IOAsync.Done r ->
         IOAsync.run_async (schedule ++ more) exp = IOAsync.Done r).
Proof.
  split; [| split; [| split]].
  - destruct (run_async_ends exp) as [schedule [r [Hr _]]]. now exists schedule, r.
  - intros schedule r. apply run_async_sound.
  - intros s1 s2 r1 r2 H1 H2.
    apply run_async_sound in H1. apply run_async_sound in H2.
    eapply same_outcome_trans; [apply same_outcome_sym; exact H1 | exact H2].
  - intros schedule more r Hr. unfold IOAsync.run_async in *.
    now rewrite run_schedule_app, Hr, run_schedule_Done.
Qed.

Lemma event_loop_is_schedule_independent_witness :
  IOAsync.run_async [[]; [0]; [0]; [0]; [1]; [1]; [1]; []; []]
    (gather [yield_from (sleep (1 # 1)) (fun _ => Return (VInt 1));
             yield_from (sleep (1 # 2)) (fun _ => Return (VInt 2))])
  = IOAsync.Done (Ok (VList [VInt 1; VInt 2]))
  /\ IOAsync.run_async [[]; [1]; [1]; [1]; [0]; [0]; [0]; []; []]
       (gather [yield_from (sleep (1 # 1)) (fun _ => Return (VInt 1));
                yield_from (sleep (1 # 2)) (fun _ => Return (VInt 2))])
     = IOAsync.Done (Ok (VList [VInt 1; VInt 2]))
  /\ same_outcome (Ok (VList [VInt 1; VInt 2])) (Ok (VList [VInt 1; VInt 2])).
Proof.
  assert (H1 : IOAsync.run_async [[]; [0]; [0]; [0]; [1]; [1]; [1]; []; []]
                 (gather [yield_from (sleep (1 # 1)) (fun _ => Return (VInt 1));
                          yield_from (sleep (1 # 2)) (fun _ => Return (VInt 2))])
               = IOAsync.Done (Ok (VList [VInt 1; VInt 2]))) by reflexivity.
  assert (H2 : IOAsync.run_async [[]; [1]; [1]; [1]; [0]; [0]; [0]; []; []]
                 (gather [yield_from (sleep (1 # 1)) (fun _ => Return (VInt 1));
                          yield_from (sleep (1 # 2)) (fun _ => Return (VInt 2))])
               = IOAsync.Done (Ok (VList [VInt 1; VInt 2]))) by reflexivity.
  split; [exact H1 | split; [exact H2 |]].
  exact (proj1 (proj2 (proj2 (event_loop_is_schedule_independent _))) _ _ _ _ H1 H2).
Defined.

(** X17.  When it is not recovered, a gather gives the same result with
    and without the [ExitInPlace] reply: if the sub-runs give the same
    results under the interpreter of file z0 and under that of file 41
    (or 50), the run of [join] under the first is the run of [gather]
    under the second; the halt that [gather] yields on [ExitInPlace] is
    the error that the blocking interpreter returns at once. *)
Theorem join_agrees_with_gather (subs : list IO) :
  (comprehension IOBlocking.run_io subs = comprehension IOAsync.run_io subs ->
   IOBlocking.run_io (join subs) = IOAsync.run_io (gather subs))
  /\ (forall dep_resolver : string -> Res Val,
         comprehension IOBlocking.run_io subs
         = comprehension (IODeps.run_io dep_resolver) subs ->
         IOBlocking.run_io (join subs) = IODeps.run_io dep_resolver (gather subs)).
Proof.
  split.
  - intros H. unfold join, gather.
    rewrite IOBlocking_run_io_Gather, IOAsync_run_io_Gather, H.
    destruct (comprehension IOAsync.run_io subs) as [rs |]; trivial.
    unfold IOAsync.gather_reply. now destruct (first_error rs).
  - intros dep_resolver H. unfold join, gather.
    rewrite IOBlocking_run_io_Gather, IODeps_run_io_Gather, H.
    destruct (comprehension (IODeps.run_io dep_resolver) subs) as [rs |]; trivial.
    unfold IOAsync.gather_reply. now destruct (first_error rs).
Qed.

Lemma join_agrees_with_gather_witness :
  comprehension IOBlocking.run_io [pure (VInt 1); halt_with_error (VStr "x")]
  = comprehension IOAsync.run_io [pure (VInt 1); halt_with_error (VStr "x")]
  /\ IOBlocking.run_io (join [pure (VInt 1); halt_with_error (VStr "x")])
     = IOAsync.run_io (gather [pure (VInt 1); halt_with_error (VStr "x")]).
Proof.
  assert (H : comprehension IOBlocking.run_io [pure (VInt 1); halt_with_error (VStr "x")]
              = comprehension IOAsync.run_io [pure (VInt 1); halt_with_error (VStr "x")])
    by reflexivity.
  split; [exact H |].
  exact (proj1 (join_agrees_with_gather [pure (VInt 1); halt_with_error (VStr "x")]) H).
Defined.

(** X18.  [get_dependency] of file 50 does not fail through the error
    channel.  When the resolver raises, the run raises, even under a
    [recover_with] around the program; when the resolver returns an
    object (not a [StopFromError] nor an [ExitInPlace]), the program
    goes on with it; on an [ExitInPlace] reply the assertion of
    [get_dependency] fails. *)
Theorem get_dependency_is_not_recoverable (dep_resolver : string -> Res Val)
        (dt : string) (rest : Val -> IO) (recover : Val -> Val) :
  (forall x,
      dep_resolver dt = Exc x ->
      IODeps.run_io dep_resolver (recover_with (yield_from (get_dependency dt) rest) recover)
      = Exc x)
  /\ (forall v,
         dep_resolver dt = Ok v ->
         is_StopFromError v = false ->
         is_ExitInPlace v = false ->
         IODeps.run_io dep_resolver (yield_from (get_dependency dt) rest)
         = IODeps.run_io dep_resolver (rest v))
  /\ (forall e,
         dep_resolver dt = Ok (VExitInPlace e) ->
         IODeps.run_io dep_resolver (recover_with (yield_from (get_dependency dt) rest) recover)
         = Exc AssertionError).
Proof.
  split; [| split].
  - intros x Hx. unfold IODeps.run_io, get_dependency. simpl. now rewrite Hx.
  - intros v Hv Hs He. unfold IODeps.run_io, get_dependency. simpl.
    now rewrite Hv, Hs, He.
  - intros e He. unfold IODeps.run_io, get_dependency. simpl. now rewrite He.
Qed.

Lemma get_dependency_is_not_recoverable_witness :
  (fun d : string => if String.eqb d "Logger" then Ok (VObj "Logger" [])
                     else Exc AssertionError) "SomeAdditionalDep"
  = Exc AssertionError
  /\ IODeps.run_io
       (fun d : string => if String.eqb d "Logger" then Ok (VObj "Logger" [])
                          else Exc AssertionError)
       (recover_with (yield_from (get_dependency "SomeAdditionalDep") (fun _ => pure VNone))
                     (fun _ => VInt (-1)))
     = Exc AssertionError.
Proof.
  assert (H : (fun d : string => if String.eqb d "Logger" then Ok (VObj "Logger" [])
                                 else Exc AssertionError) "SomeAdditionalDep"
              = Exc AssertionError) by reflexivity.
  split; [exact H |].
  exact (proj1 (get_dependency_is_not_recoverable
                  (fun d : string => if String.eqb d "Logger" then Ok (VObj "Logger" [])
                                     else Exc AssertionError)
                  "SomeAdditionalDep" (fun _ => pure VNone) (fun _ => VInt (-1))) _ H).
Defined.

(* ================================================================= *)
(** * Iterators and the tree walk *)

Lemma Zrange_from (cur : Z) (n : nat) :
  map (fun k => (cur + Z.of_nat k)%Z) (seq 0 (Datatypes.S n))
  = cur :: map (fun k => (cur + 1 + Z.of_nat k)%Z) (seq 0 n).
Proof.
  simpl. f_equal; [lia |].
  rewrite <- seq_shift, map_map. apply map_ext. intros k. lia.
Qed.

Lemma drain_counts (n : nat) :
  forall cur end_ : Z,
    end_ = (cur + Z.of_nat n)%Z ->
    Iterators.drain (Datatypes.S n) (Iterators.mkRangeIterator cur end_)
    = Some (map (fun k => (cur + Z.of_nat k)%Z) (seq 0 n)).
Proof.
  induction n as [| n IH]; intros cur end_ Hend.
  - cbv beta iota delta [Iterators.drain Iterators.RangeIterator_next
                         Iterators._current Iterators._end].
    replace (cur =? end_)%Z with true by (symmetry; apply Z.eqb_eq; lia). reflexivity.
  - rewrite Zrange_from.
    change (Iterators.drain (Datatypes.S (Datatypes.S n)) (Iterators.mkRangeIterator cur end_))
      with (match Iterators.RangeIterator_next (Iterators.mkRangeIterator cur end_) with
            | None => Some []
            | Some (x, iterator') =>
              match Iterators.drain (Datatypes.S n) iterator' with
              | Some xs => Some (x :: xs)
              | None => None
              end
            end).
    cbv beta iota delta [Iterators.RangeIterator_next Iterators._current Iterators._end].
    replace (cur =? end_)%Z with false by (symmetry; apply Z.eqb_neq; lia).
    rewrite (IH (cur + 1)%Z end_) by lia. reflexivity.
Qed.

Lemma for_in_Yield {Y A} (y : Y) (k : unit -> Gen Y unit A) :
  Iterators.for_in (Yield y k)
  = match Iterators.for_in (k tt) with
    | Ok ys => Ok (y :: ys)
    | Exc x => Exc x
    end.
Proof. reflexivity. Qed.

Lemma for_in_range_loop (n : nat) :
  forall cur end_ : Z,
    end_ = (cur + Z.of_nat n)%Z ->
    Iterators.for_in (Iterators.range_loop (Datatypes.S n) cur end_)
    = Ok (map (fun k => (cur + Z.of_nat k)%Z) (seq 0 n)).
Proof.
  induction n as [| n IH]; intros cur end_ Hend.
  - simpl. replace (cur <? end_)%Z with false by (symmetry; apply Z.ltb_ge; lia).
    reflexivity.
  - rewrite Zrange_from.
    change (Iterators.range_loop (Datatypes.S (Datatypes.S n)) cur end_)
      with (if (cur <? end_)%Z
            then Yield cur (fun _ : unit => Iterators.range_loop (Datatypes.S n) (cur + 1) end_)
            else Return tt).
    replace (cur <? end_)%Z with true by (symmetry; apply Z.ltb_lt; lia).
    rewrite for_in_Yield, (IH (cur + 1)%Z end_) by lia. reflexivity.
Qed.

(** X19.  The iterator class of file 00 and the generator of file 01
    give the same sequence.  For [start <= end], the loop over
    [RangeIterator(start, end)] ends within [end - start + 1] calls of
    [next] and sees [start, start + 1, ..., end - 1], which is what
    [for x in range_iterator(start, end)] sees; there are [end - start]
    values.  For [start > end] the assertion fails: in the constructor
    of the class, and at the first [next] of the generator.  [__next__]
    returns [_current], moves it by one and leaves [_end]; it keeps
    [_current <= _end] as long as it returns a value. *)
Theorem range_iterators_agree (start end_ : Z) :
  ((start <= end_)%Z ->
   (exists iterator,
       Iterators.RangeIterator_init start end_ = Ok iterator
       /\ Iterators.drain (Datatypes.S (Z.to_nat (end_ - start))) iterator
          = Some (Zrange start end_))
   /\ Iterators.for_in (Iterators.range_iterator start end_) = Ok (Zrange start end_)
   /\ List.length (Zrange start end_) = Z.to_nat (end_ - start))
  /\ ((end_ < start)%Z ->
      Iterators.RangeIterator_init start end_ = Exc AssertionError
      /\ Iterators.for_in (Iterators.range_iterator start end_) = Exc AssertionError)
  /\ (forall (self self' : Iterators.RangeIterator) (x : Z),
         (Iterators._current self <= Iterators._end self)%Z ->
         Iterators.RangeIterator_next self = Some (x, self') ->
         x = Iterators._current self
         /\ Iterators._current self' = (Iterators._current self + 1)%Z
         /\ Iterators._end self' = Iterators._end self
         /\ (Iterators._current self' <= Iterators._end self')%Z).
Proof.
  split; [| split].
  - intros Hle. split; [| split].
    + exists (Iterators.mkRangeIterator start end_). split.
      * unfold Iterators.RangeIterator_init.
        now replace (start <=? end_)%Z with true by (symmetry; apply Z.leb_le; lia).
      * apply drain_counts. lia.
    + unfold Iterators.range_iterator.
      replace (start <=? end_)%Z with true by (symmetry; apply Z.leb_le; lia).
      apply for_in_range_loop. lia.
    + unfold Zrange. now rewrite length_map, length_seq.
  - intros Hlt. unfold Iterators.RangeIterator_init, Iterators.range_iterator.
    replace (start <=? end_)%Z with false by (symmetry; apply Z.leb_gt; lia).
    now split.
  - intros [cur e] self' x Hinv. unfold Iterators.RangeIterator_next. simpl in *.
    destruct (cur =? e)%Z eqn:Heq; [discriminate |].
    intros [= <- <-]. simpl. apply Z.eqb_neq in Heq. repeat split; lia.
Qed.

(** The witness: [RangeIterator(5, 8)] and [range_iterator(5, 8)] of the
    two [main]. *)
Lemma range_iterators_agree_witness :
  (5 <= 8)%Z
  /\ Iterators.for_in (Iterators.range_iterator 5 8) = Ok [5; 6; 7]%Z.
Proof.
  assert (H : (5 <= 8)%Z) by lia.
  split; [exact H |].
  exact (proj1 (proj2 (proj1 (range_iterators_agree 5 8) H))).
Defined.

Lemma left_only_path_from_walk {A} :
  forall (t : TreeWalk.BinaryTree A) (collected : list A),
    TreeWalk.left_only_path_from collected (TreeWalk.walk_from t)
    = Ok (collected ++ left_spine t)%list.
Proof.
  fix IH 1. intros [value l r] collected. simpl.
  destruct l as [t' |]; simpl.
  - rewrite IH. now rewrite <- app_assoc.
  - reflexivity.
Qed.

Lemma combine_snoc {A B} (l : list A) (l' : list B) (a : A) (b : B) :
  List.length l = List.length l' ->
  combine (l ++ [a]) (l' ++ [b]) = (combine l l' ++ [(a, b)])%list.
Proof.
  revert l'; induction l as [| x l IH]; intros [| y l'] Hlen; simpl in *;
    try discriminate; trivial.
  rewrite IH by congruence. reflexivity.
Qed.

Lemma random_path_from_walk {A} (choice : nat -> TreeWalk.WalkDirection) :
  forall (t : TreeWalk.BinaryTree A) (n : nat) (collected : list A)
         (chosen : list TreeWalk.WalkDirection),
    List.length collected = List.length chosen ->
    TreeWalk.random_path_from choice n collected chosen (TreeWalk.walk_from t)
    = Ok (combine collected chosen ++ path_along choice n t)%list.
Proof.
  fix IH 1. intros [value l r] n collected chosen Hlen. simpl.
  assert (Hlen' : List.length (collected ++ [value]) = List.length (chosen ++ [choice n]))
    by (rewrite !length_app; simpl; lia).
  destruct (choice n) eqn:Hc.
  - destruct l as [t' |]; simpl.
    + rewrite IH by exact Hlen'. rewrite combine_snoc by exact Hlen.
      now rewrite <- app_assoc.
    + now rewrite combine_snoc by exact Hlen.
  - destruct r as [t' |]; simpl.
    + rewrite IH by exact Hlen'. rewrite combine_snoc by exact Hlen.
      now rewrite <- app_assoc.
    + now rewrite combine_snoc by exact Hlen.
Qed.

(** X20.  [left_only_path_driver(binary_tree_walk(tree))] returns the
    values from the root down the left children of the tree, for every
    tree: a list that starts with the value of the root and is never
    empty.  On the tree of [main] it is [[0, 1, 2]]. *)
Theorem left_only_path_is_left_spine (A : Type) (tree : TreeWalk.BinaryTree A) :
  TreeWalk.left_only_path_driver (TreeWalk.binary_tree_walk tree) = Ok (left_spine tree)
  /\ match tree with
     | TreeWalk.Node value _ _ => exists rest, left_spine tree = value :: rest
     end
  /\ TreeWalk.left_only_path_driver (TreeWalk.binary_tree_walk TreeWalk.root)
     = Ok [0; 1; 2]%Z.
Proof.
  split; [| split].
  - apply (left_only_path_from_walk tree []).
  - destruct tree as [value l r]. simpl. eauto.
  - reflexivity.
Qed.

(** X21.  [random_path_driver(binary_tree_walk(tree))], whatever the
    random choices are, returns the nodes of the path that the choices
    follow from the root, each with the direction chosen at it: as many
    pairs as nodes visited, the last direction being the one that left
    the tree.  When every choice is ["left"], the values are those of
    [left_only_path_driver]. *)
Theorem random_path_follows_choices (A : Type) (choice : nat -> TreeWalk.WalkDirection)
        (tree : TreeWalk.BinaryTree A) :
  TreeWalk.random_path_driver choice (TreeWalk.binary_tree_walk tree)
  = Ok (path_along choice 0 tree)
  /\ map fst (path_along (fun _ => TreeWalk.go_left) 0 tree) = left_spine tree.
Proof.
  split.
  - apply (random_path_from_walk choice tree 0 [] []). reflexivity.
  - generalize 0%nat. revert tree. fix IH 1. intros [value l r] n. simpl.
    destruct l as [t' |]; simpl; [now rewrite IH | reflexivity].
Qed.

(* ================================================================= *)
(** * Recovery by a program, and recovery around a gather *)

(** X22.  [recover_with_either(program, g)] is [program] up to its first
    halt and [g(e)] from there.  For every request type, program and
    sequence of replies, a driver sees the requests of [program] that
    come before its first [StopFromError(e)], each unchanged, and then,
    in place of the halt and with the replies that remain, what it sees
    of [g(e)]; a program that does not halt is seen as it is. *)
Theorem recover_with_either_switches_at_first_halt (Y S A : Type) (HS : HasStopFromError Y)
        (program : Gen Y S A) (g : Val -> Gen Y S A) (replies : list S) :
  trace replies (recover_with_either program g)
  = switched g replies (fst (trace replies program)) (snd (trace replies program)).
Proof.
  revert replies; induction program as [a | y k IH | x]; intros replies; simpl; trivial.
  destruct (as_StopFromError y) as [error |] eqn:Hy.
  - destruct replies as [| v replies]; simpl.
    + now rewrite Hy.
    + destruct (trace replies (k v)); simpl. now rewrite Hy.
  - destruct replies as [| v replies]; simpl.
    + now rewrite Hy.
    + rewrite IH. destruct (trace replies (k v)) as [t r]; simpl. rewrite Hy.
      now destruct (switched g replies t r).
Qed.

(** X23.  Under the interpreters of files 41 and 50, a [recover_with]
    around a gather recovers the halt of a sub-program: when the
    sub-programs end with the results [rs], whose first halt is
    [Halted(e)], the run of [recover_with(gather(subs), f)] completes
    with [f(e)]; under file 41 under every schedule of the event loop,
    and some schedule ends. *)
Theorem gather_error_reaches_recover_with (subs : list IO) (rs : list Val) (e : Val)
        (f : Val -> Val) :
  first_error rs = Some e ->
  (Forall2 (returns IOAsync.run_io) subs rs ->
   IOAsync.run_io (recover_with (gather subs) f) = Completed (f e)
   /\ (forall schedule r,
          IOAsync.run_async schedule (recover_with (gather subs) f) = IOAsync.Done r ->
          r = Completed (f e))
   /\ exists schedule,
       IOAsync.run_async schedule (recover_with (gather subs) f)
       = IOAsync.Done (Completed (f e)))
  /\ (forall dep_resolver : string -> Res Val,
         Forall2 (returns (IODeps.run_io dep_resolver)) subs rs ->
         IODeps.run_io dep_resolver (recover_with (gather subs) f) = Completed (f e)).
Proof.
  intros He. split.
  - intros Hrs. now apply IOAsync_gather_error_is_recovered with (rs := rs).
  - intros dep_resolver Hrs. now apply IODeps_gather_error_is_recovered with (rs := rs).
Qed.

(** The witness: the gather of [prog2] of file 41. *)
Lemma gather_error_reaches_recover_with_witness :
  first_error [VStr "abcd"; VStopFromError SuffixToLong] = Some SuffixToLong
  /\ Forall2 (returns IOAsync.run_io)
             [IOAsync.prefix_of "abcdefgh" 4; IOAsync.suffix_of "abcdefgh" 20]
             [VStr "abcd"; VStopFromError SuffixToLong]
  /\ IOAsync.run_io
       (recover_with
          (gather [IOAsync.prefix_of "abcdefgh" 4; IOAsync.suffix_of "abcdefgh" 20])
          main_recover)
     = Completed (main_recover SuffixToLong).
Proof.
  assert (H1 : first_error [VStr "abcd"; VStopFromError SuffixToLong] = Some SuffixToLong)
    by reflexivity.
  assert (H2 : Forall2 (returns IOAsync.run_io)
                 [IOAsync.prefix_of "abcdefgh" 4; IOAsync.suffix_of "abcdefgh" 20]
                 [VStr "abcd"; VStopFromError SuffixToLong])
    by (repeat constructor).
  split; [exact H1 | split; [exact H2 |]].
  exact (proj1 (proj1 (@gather_error_reaches_recover_with
                         [IOAsync.prefix_of "abcdefgh" 4; IOAsync.suffix_of "abcdefgh" 20]
                         _ _ main_recover H1) H2)).
Defined.
